(** * nzeb-backend: the energy model (models.py) and its request handler (app.py)

    A shallow embedding of the two Python modules.

    Numbers.  There are two readings of Python's numbers.

    - The main development reads [int] and [float] values as exact
      rationals ([Q]), so [==] below is equality of rationals and a value it
      states is the value of the code up to the rounding of IEEE doubles.
      What a double cannot hold is kept: [**] raises [OverflowError] above
      the range of doubles and yields 0 below it.  An operation that raises
      in Python ([ZeroDivisionError], [OverflowError], [KeyError],
      [TypeError]) raises in the model.  A Python [int] argument is read as
      the double of the same value.

    - [Module Binary64] embeds the battery on Rocq's primitive binary64
      floats, operation for operation, for the properties that rounding
      decides: an exact boundary value of the state of charge, a bound on
      it.

    Effects.  [Battery.charge] and [Battery.discharge] mutate [self.soc];
    they are state transformers on the battery record that may raise after
    the mutation.  The handler threads a log of the battery methods it
    invokes next to its result.

    Requests.  [request.get_json()] is taken to yield a dict.  A numeric
    field holds a JSON number ([int] or finite [float]); a value of another
    JSON type raises [TypeError] where it is needed as a number.  The wind
    model needs a field where its body first compares or multiplies it, so
    a field that the branch taken does not read may hold any value; the
    fields of the other sections are needed when the section is read.
    Python's overloads of [*] and [<] on strings and lists, and [bool] read
    as a number, are not modelled. *)

From Stdlib Require Import QArith Qminmax Qpower Qabs Lqa ZArith Lia List String
  Bool.
From Stdlib Require PrimFloat.
Import ListNotations.
Local Open Scope Q_scope.

(* ===================================================================== *)
(** ** Exceptions and fallible computations                               *)
(* ===================================================================== *)

Inductive exn : Type :=
| KeyError (key : string)
| TypeError
| AttributeError
| ZeroDivisionError
| OverflowError.

Inductive result (A : Type) : Type :=
| Ok (a : A)
| Raise (e : exn).
Arguments Ok {A} a.
Arguments Raise {A} e.

Definition bind {A B : Type} (c : result A) (k : A -> result B) : result B :=
  match c with
  | Ok a => k a
  | Raise e => Raise e
  end.

Declare Scope py_scope.
Delimit Scope py_scope with py.
Notation "x <- c ;; k" := (bind c (fun x => k))
  (at level 61, c at next level, right associativity) : py_scope.
Local Open Scope py_scope.

(** A computation over a mutable state [S]: the state survives a raise. *)
Definition M (S A : Type) : Type := S -> S * result A.

Definition ret {S A : Type} (a : A) : M S A := fun s => (s, Ok a).

Definition lift {S A : Type} (c : result A) : M S A := fun s => (s, c).

Definition bindM {S A B : Type} (c : M S A) (k : A -> M S B) : M S B :=
  fun s =>
    match c s with
    | (s', Ok a) => k a s'
    | (s', Raise e) => (s', Raise e)
    end.

Notation "x <~ c ;; k" := (bindM c (fun x => k))
  (at level 61, c at next level, right associativity) : py_scope.

(* ===================================================================== *)
(** ** Python arithmetic                                                  *)
(* ===================================================================== *)

(** [x / y]: raises on a zero divisor. *)
Definition py_div (x y : Q) : result Q :=
  if Qeq_bool y 0 then Raise ZeroDivisionError else Ok (x / y).

(** The largest double is [(2^53 - 1) * 2^971]; a value of magnitude
    [2^1024 - 2^970] or more, half a unit in the last place above it, is
    beyond the range of doubles. *)
Definition float_overflow_threshold : Q := inject_Z (2 ^ 1024 - 2 ^ 970).

(** The smallest positive double is [2^-1074]; a value of magnitude
    [2^-1075] or less rounds to zero. *)
Definition float_underflow_threshold : Q := 1 # (2 ^ 1075).

(** The values that a double holds as a nonzero finite number. *)
Definition in_double_range (q : Q) : bool :=
  negb (Qle_bool float_overflow_threshold (Qabs q))
  && negb (Qle_bool (Qabs q) float_underflow_threshold).

(** [x ** y] for a float [x] and an int [y]: raises [OverflowError] when the
    power is beyond the range of doubles, underflows to 0 silently, and
    raises [ZeroDivisionError] for a zero base and a negative exponent. *)
Definition py_pow (x : Q) (y : Z) : result Q :=
  if Qeq_bool x 0 && (y <? 0)%Z then Raise ZeroDivisionError
  else
    let p := x ^ y in
    if Qle_bool float_overflow_threshold (Qabs p) then Raise OverflowError
    else if Qle_bool (Qabs p) float_underflow_threshold then Ok 0
    else Ok p.

(** [min(a, b)]: the first argument unless the second is strictly smaller. *)
Definition py_min (a b : Q) : Q :=
  match b ?= a with
  | Lt => b
  | _ => a
  end.

Definition Qltb (x y : Q) : bool :=
  match x ?= y with
  | Lt => true
  | _ => false
  end.

Definition Qleb (x y : Q) : bool := Qle_bool x y.

(** [range(start, stop)] *)
Definition py_range (start stop : Z) : list Z :=
  map (fun i => (start + Z.of_nat i)%Z) (seq 0 (Z.to_nat (stop - start))).

(** [for x in xs: acc = body(acc, x)], where the body may raise. *)
Fixpoint for_each {A B : Type} (xs : list A) (body : B -> A -> result B)
    (acc : B) : result B :=
  match xs with
  | [] => Ok acc
  | x :: rest => acc' <- body acc x ;; for_each rest body acc'
  end.

(* ===================================================================== *)
(** ** models.py                                                          *)
(* ===================================================================== *)

Definition calculate_total_energy_generated (e_pv e_wt e_bg : Q) : Q :=
  e_pv + e_wt + e_bg.

Definition calculate_energy_balance (e_generated e_grid e_load : Q) : Q :=
  e_generated + e_grid - e_load.

Definition calculate_pv_energy (area efficiency irradiance : Q) : Q :=
  area * efficiency * irradiance.

Definition calculate_wind_power
    (rho area cp v v_cut_in v_rated v_cut_out p_rated : Q) : Q :=
  if Qltb v v_cut_in || Qltb v_cut_out v then 0
  else if Qleb v_cut_in v && Qleb v v_rated then
    ((5 # 10) * rho * area * (v ^ 3) * cp) / 1000
  else if Qltb v_rated v && Qleb v v_cut_out then p_rated
  else 0.

Definition calculate_wind_energy
    (rho area cp v v_cut_in v_rated v_cut_out p_rated delta_t : Q) : Q :=
  let power_kw :=
    calculate_wind_power rho area cp v v_cut_in v_rated v_cut_out p_rated in
  power_kw * delta_t.

Definition calculate_biogas_energy (y_ch4 m_feedstock eta_bg hhv_ch4 : Q) : Q :=
  let v_ch4 := y_ch4 * m_feedstock in
  eta_bg * v_ch4 * hhv_ch4 / 24.

(** *** Battery *)

Record Battery : Type := mkBattery {
  capacity : Q;
  soc : Q;
  eta_c : Q;
  eta_d : Q
}.

(** [Battery(capacity, initial_soc, eta_c, eta_d)] *)
Definition Battery_init (capacity initial_soc eta_c eta_d : Q) : Battery :=
  mkBattery capacity initial_soc eta_c eta_d.

(** [self.soc = x] *)
Definition set_soc (x : Q) : M Battery unit :=
  fun self => (mkBattery (capacity self) x (eta_c self) (eta_d self), Ok tt).

Definition self_ : M Battery Battery := fun self => (self, Ok self).

Definition charge (energy_kwh : Q) : M Battery Q :=
  self <~ self_ ;;
  let space_available := (1 - soc self) * capacity self in
  let energy_to_store := energy_kwh * eta_c self in
  let actual_charge := py_min space_available energy_to_store in
  d <~ lift (py_div actual_charge (capacity self)) ;;
  _ <~ set_soc (soc self + d) ;;
  lift (py_div actual_charge (eta_c self)).

Definition discharge (energy_kwh : Q) : M Battery Q :=
  self <~ self_ ;;
  let energy_available := soc self * capacity self * eta_d self in
  let actual_discharge := py_min energy_available energy_kwh in
  t <~ lift (py_div actual_discharge (eta_d self)) ;;
  d <~ lift (py_div t (capacity self)) ;;
  _ <~ set_soc (soc self - d) ;;
  ret actual_discharge.

(** *** The battery on binary64 floats

    The same two methods with every operation of the source done on a
    double: [-], [*], [/], [+] round to nearest, [min] and the test for a
    zero divisor compare doubles.  The fields and the argument are Python
    floats; an [int] such as [3] is the double [3.0]. *)
Module Binary64.

Import PrimFloat.

Record Battery : Type := mkBattery {
  capacity : float;
  soc : float;
  eta_c : float;
  eta_d : float
}.

(** [x / y] on floats: raises when [y] is [0.0] or [-0.0]. *)
Definition py_div (x y : float) : result float :=
  if (y =? 0)%float then Raise ZeroDivisionError else Ok (x / y)%float.

(** [min(a, b)]: the first argument unless the second is strictly smaller. *)
Definition py_min (a b : float) : float :=
  if (b <? a)%float then b else a.

(** [self.soc = x] *)
Definition set_soc (x : float) : M Battery unit :=
  fun self => (mkBattery (capacity self) x (eta_c self) (eta_d self), Ok tt).

Definition self_ : M Battery Battery := fun self => (self, Ok self).

Definition charge (energy_kwh : float) : M Battery float :=
  self <~ self_ ;;
  let space_available := ((1 - soc self) * capacity self)%float in
  let energy_to_store := (energy_kwh * eta_c self)%float in
  let actual_charge := py_min space_available energy_to_store in
  d <~ lift (py_div actual_charge (capacity self)) ;;
  _ <~ set_soc (soc self + d)%float ;;
  lift (py_div actual_charge (eta_c self)).

Definition discharge (energy_kwh : float) : M Battery float :=
  self <~ self_ ;;
  let energy_available := (soc self * capacity self * eta_d self)%float in
  let actual_discharge := py_min energy_available energy_kwh in
  t <~ lift (py_div actual_discharge (eta_d self)) ;;
  d <~ lift (py_div t (capacity self)) ;;
  _ <~ set_soc (soc self - d)%float ;;
  ret actual_discharge.

(** The state of charge lies in the documented range 0.0 to 1.0. *)
Definition soc_in_range (b : Battery) : bool :=
  ((0 <=? soc b) && (soc b <=? 1))%float.

End Binary64.

(** *** Life cycle cost *)

Definition calculate_lcc (c_init c_om c_rep s r : Q) (n : Z) : result Q :=
  let total_costs := c_init in
  for_each (py_range 1 (n + 1))
    (fun total_costs y =>
       let annual_cost := c_om in
       let annual_cost :=
         if (y =? n)%Z then annual_cost + (c_rep - s) else annual_cost in
       d <- py_pow (1 + r) y ;;
       t <- py_div annual_cost d ;;
       Ok (total_costs + t))
    total_costs.

(** A Python float that may be [float("inf")]. *)
Inductive pyfloat : Type :=
| Finite (q : Q)
| Inf.

Definition calculate_lcoe (lcc e_total_per_year r : Q) (n : Z) : result pyfloat :=
  let total_discounted_energy := 0 in
  total_discounted_energy <-
    for_each (py_range 1 (n + 1))
      (fun total_discounted_energy y =>
         d <- py_pow (1 + r) y ;;
         t <- py_div e_total_per_year d ;;
         Ok (total_discounted_energy + t))
      total_discounted_energy ;;
  if Qeq_bool total_discounted_energy 0 then Ok Inf
  else q <- py_div lcc total_discounted_energy ;; Ok (Finite q).

Definition calculate_co2_reduction (e_offset ef : Q) : Q :=
  e_offset * ef.

(* ===================================================================== *)
(** ** JSON values                                                        *)
(* ===================================================================== *)

(** What [request.get_json()] yields and what [jsonify] takes.  A JSON
    object is a Python dict, kept as an association list whose first
    binding of a key is the dict's entry. *)
#[local] Unset Elimination Schemes.
Inductive json : Type :=
| JNull
| JBool (b : bool)
| JInt (z : Z)
| JFloat (x : pyfloat)
| JStr (s : string)
| JArr (items : list json)
| JObj (fields : list (string * json)).
#[local] Set Elimination Schemes.

Definition dict : Type := list (string * json).

(** [d.get(k)] *)
Fixpoint dict_get (k : string) (d : dict) : option json :=
  match d with
  | [] => None
  | (k', v) :: rest => if String.eqb k k' then Some v else dict_get k rest
  end.

(** [k in d] *)
Definition dict_in (k : string) (d : dict) : bool :=
  match dict_get k d with
  | Some _ => true
  | None => false
  end.

(** [v[k]] with a string key: only a dict can be subscripted by it. *)
Definition getitem (v : json) (k : string) : result json :=
  match v with
  | JObj d =>
      match dict_get k d with
      | Some x => Ok x
      | None => Raise (KeyError k)
      end
  | _ => Raise TypeError
  end.

(** [v.get(k, default)] *)
Definition get_default (v : json) (k : string) (default : json) : result json :=
  match v with
  | JObj d =>
      match dict_get k d with
      | Some x => Ok x
      | None => Ok default
      end
  | _ => Raise AttributeError
  end.

(** A request field used in arithmetic has to hold a finite number. *)
Definition as_number (v : json) : result Q :=
  match v with
  | JInt z => Ok (inject_Z z)
  | JFloat (Finite q) => Ok q
  | _ => Raise TypeError
  end.

(** [range] takes an [int] only. *)
Definition as_int (v : json) : result Z :=
  match v with
  | JInt z => Ok z
  | _ => Raise TypeError
  end.

Definition num (q : Q) : json := JFloat (Finite q).

(** [v == s] for a string literal [s] *)
Definition eq_str (v : option json) (s : string) : bool :=
  match v with
  | Some (JStr t) => String.eqb t s
  | _ => false
  end.

(* ===================================================================== *)
(** ** app.py                                                             *)
(* ===================================================================== *)

(** The battery methods the handler invokes, in order, with their argument. *)
Inductive battery_call : Type :=
| CallCharge (energy_kwh : Q)
| CallDischarge (energy_kwh : Q).

Definition trace : Type := list battery_call.

(** [battery.m(...)] in the handler: the call is logged, then [m] runs on
    the battery object. *)
Definition invoke {A : Type} (c : battery_call) (m : M Battery A)
    (battery : Battery) : M trace (Battery * A) :=
  fun log =>
    let (battery', r) := m battery in
    (log ++ [c],
     match r with
     | Ok a => Ok (battery', a)
     | Raise e => Raise e
     end).

Definition required_keys : list string :=
  [ "solar_inputs"; "wind_inputs"; "biogas_inputs"; "load_demand";
    "grid_energy"; "battery_inputs"; "lcca_inputs"; "co2_inputs" ]%string.

(** Line 41: [all(key in data for key in required_keys)] *)
Definition has_required_keys (data : dict) : bool :=
  forallb (fun key => dict_in key data) required_keys.

(** Lines 55-59: [e_pv]. *)
Definition request_e_pv (solar_inputs : json) : result Q :=
  area <- getitem solar_inputs "area_pv" ;;
  efficiency <- getitem solar_inputs "efficiency_pv" ;;
  irradiance <- getitem solar_inputs "irradiance" ;;
  area <- as_number area ;;
  efficiency <- as_number efficiency ;;
  irradiance <- as_number irradiance ;;
  Ok (calculate_pv_energy area efficiency irradiance).

(** [calculate_wind_power] as the handler calls it, on the values of the
    request.  The body needs a value as a number where it first compares or
    multiplies it: the wind speed and the cut-in speed, then the cut-out
    speed, then the rated speed, then the factors of the cubic branch.  A
    field that the branch taken does not read is not looked at, and
    [p_rated] is returned as it came. *)
Definition calculate_wind_power_on_request
    (rho area cp v v_cut_in v_rated v_cut_out p_rated : json) : result json :=
  v <- as_number v ;;
  v_cut_in <- as_number v_cut_in ;;
  if Qltb v v_cut_in then Ok (num 0)
  else
    v_cut_out <- as_number v_cut_out ;;
    if Qltb v_cut_out v then Ok (num 0)
    else
      v_rated <- as_number v_rated ;;
      if Qleb v_cut_in v && Qleb v v_rated then
        rho <- as_number rho ;;
        area <- as_number area ;;
        cp <- as_number cp ;;
        Ok (num (((5 # 10) * rho * area * (v ^ 3) * cp) / 1000))
      else if Qltb v_rated v && Qleb v v_cut_out then Ok p_rated
      else Ok (num 0).

(** [calculate_wind_energy] on the values of the request:
    [power_kw * delta_t]. *)
Definition calculate_wind_energy_on_request
    (rho area cp v v_cut_in v_rated v_cut_out p_rated delta_t : json)
    : result Q :=
  power_kw <-
    calculate_wind_power_on_request rho area cp v v_cut_in v_rated v_cut_out
      p_rated ;;
  power_kw <- as_number power_kw ;;
  delta_t <- as_number delta_t ;;
  Ok (power_kw * delta_t).

(** Lines 61-71: [e_wt].  The nine subscripts are evaluated before the
    call. *)
Definition request_e_wt (wind_inputs : json) : result Q :=
  rho <- getitem wind_inputs "air_density" ;;
  area <- getitem wind_inputs "swept_area" ;;
  cp <- getitem wind_inputs "power_coefficient" ;;
  v <- getitem wind_inputs "wind_speed" ;;
  v_cut_in <- getitem wind_inputs "v_cut_in" ;;
  v_rated <- getitem wind_inputs "v_rated" ;;
  v_cut_out <- getitem wind_inputs "v_cut_out" ;;
  p_rated <- getitem wind_inputs "p_rated" ;;
  delta_t <- getitem wind_inputs "delta_t" ;;
  calculate_wind_energy_on_request rho area cp v v_cut_in v_rated v_cut_out
    p_rated delta_t.

(** Lines 73-78: [e_bg]. *)
Definition request_e_bg (biogas_inputs : json) : result Q :=
  y_ch4 <- getitem biogas_inputs "methane_yield" ;;
  m_feedstock <- getitem biogas_inputs "mass_feedstock" ;;
  eta_bg <- getitem biogas_inputs "efficiency_bg" ;;
  hhv_ch4 <- getitem biogas_inputs "hhv_ch4" ;;
  y_ch4 <- as_number y_ch4 ;;
  m_feedstock <- as_number m_feedstock ;;
  eta_bg <- as_number eta_bg ;;
  hhv_ch4 <- as_number hhv_ch4 ;;
  Ok (calculate_biogas_energy y_ch4 m_feedstock eta_bg hhv_ch4).

(** Lines 83-88: [battery = Battery(...)]. *)
Definition request_battery (battery_inputs : json) : result Battery :=
  capacity <- getitem battery_inputs "capacity" ;;
  initial_soc <- get_default battery_inputs "initial_soc" (num (5 # 10)) ;;
  eta_c <- getitem battery_inputs "eta_c" ;;
  eta_d <- getitem battery_inputs "eta_d" ;;
  capacity <- as_number capacity ;;
  initial_soc <- as_number initial_soc ;;
  eta_c <- as_number eta_c ;;
  eta_d <- as_number eta_d ;;
  Ok (Battery_init capacity initial_soc eta_c eta_d).

(** Lines 90-102: the battery simulation.  Yields the battery object and
    [energy_from_generation]. *)
Definition battery_simulation (battery : Battery)
    (total_energy_generated load_demand : Q) : M trace (Battery * Q) :=
  let energy_from_generation := total_energy_generated in
  let energy_needed := load_demand in
  if Qltb energy_needed energy_from_generation then
    let excess := energy_from_generation - energy_needed in
    r <~ invoke (CallCharge excess) (charge excess) battery ;;
    let '(battery, charge_amount) := r in
    ret (battery, energy_from_generation - charge_amount)
  else if Qltb energy_from_generation energy_needed then
    let deficit := energy_needed - energy_from_generation in
    r <~ invoke (CallDischarge deficit) (discharge deficit) battery ;;
    let '(battery, discharged_amount) := r in
    ret (battery, energy_from_generation + discharged_amount)
  else ret (battery, energy_from_generation).

(** What the handler holds when it reaches the battery simulation at
    line 90: the battery object, [total_energy_generated] and the load.
    These are lines 45-88 restricted to the fields the simulation reads. *)
Definition simulation_inputs (data : dict) : result (Battery * Q * Q) :=
  solar_inputs <- getitem (JObj data) "solar_inputs" ;;
  wind_inputs <- getitem (JObj data) "wind_inputs" ;;
  biogas_inputs <- getitem (JObj data) "biogas_inputs" ;;
  load_demand <- getitem (JObj data) "load_demand" ;;
  battery_inputs <- getitem (JObj data) "battery_inputs" ;;
  e_pv <- request_e_pv solar_inputs ;;
  e_wt <- request_e_wt wind_inputs ;;
  e_bg <- request_e_bg biogas_inputs ;;
  battery <- request_battery battery_inputs ;;
  load <- as_number load_demand ;;
  Ok (battery, calculate_total_energy_generated e_pv e_wt e_bg, load).

(** Lines 114-128: [lcc] and [lcoe]. *)
Definition request_lcc (lcca_inputs : json) : result Q :=
  c_init <- getitem lcca_inputs "c_init" ;;
  c_om <- getitem lcca_inputs "c_om" ;;
  c_rep <- getitem lcca_inputs "c_rep" ;;
  s <- getitem lcca_inputs "s" ;;
  r <- getitem lcca_inputs "r" ;;
  n <- getitem lcca_inputs "n" ;;
  c_init <- as_number c_init ;;
  c_om <- as_number c_om ;;
  c_rep <- as_number c_rep ;;
  s <- as_number s ;;
  r <- as_number r ;;
  n <- as_int n ;;
  calculate_lcc c_init c_om c_rep s r n.

Definition request_lcoe (lcca_inputs : json) (lcc total_energy_per_year : Q)
    : result pyfloat :=
  r <- getitem lcca_inputs "r" ;;
  n <- getitem lcca_inputs "n" ;;
  r <- as_number r ;;
  n <- as_int n ;;
  calculate_lcoe lcc total_energy_per_year r n.

(** Lines 137-150: [scenario_results]. *)
Definition scenario_modeling (data : dict)
    (total_energy_generated load_demand : Q) : result dict :=
  let scenario_results := [] in
  if eq_str (dict_get "scenario" data) "grid_outage" then
    let e_excess_outage :=
      calculate_energy_balance total_energy_generated 0 load_demand in
    uptime <-
      (if Qltb 0 load_demand then
         q <- py_div total_energy_generated load_demand ;; Ok (q * 100)
       else Ok 100) ;;
    Ok [ ("grid_outage"%string,
          JObj [ ("message"%string,
                  JStr "Simulation for grid outage scenario.");
                 ("excess_energy_during_outage_kWh"%string,
                  num e_excess_outage);
                 ("system_uptime_percentage"%string,
                  num (py_min uptime 100)) ]) ]
  else Ok scenario_results.

(** Lines 154-173: the regression block.  [irradiance_samples] is the fixed
    sample set of the source. *)
Definition irradiance_samples : list Q :=
  [ 1 # 10; 2 # 10; 4 # 10; 6 # 10; 8 # 10; 1 ].

(** The local variables of [nzeb_model] from which the response is built. *)
Record locals : Type := mkLocals {
  e_pv : Q;
  e_wt : Q;
  e_bg : Q;
  total_energy_generated : Q;
  load_demand : json;
  grid_energy : json;
  battery : Battery;
  energy_from_generation : Q;
  e_excess : Q;
  lcc : Q;
  lcoe : pyfloat;
  delta_co2 : Q;
  scenario_results : dict;
  regression_results : json
}.

(** Lines 176-198: the response dict. *)
Definition response (l : locals) : json :=
  JObj
    [ ("energy_generation"%string,
       JObj [ ("solar_pv_kWh"%string, num (e_pv l));
              ("wind_turbine_kWh"%string, num (e_wt l));
              ("biogas_kWh"%string, num (e_bg l));
              ("total_generated_kWh"%string, num (total_energy_generated l)) ]);
      ("energy_balance"%string,
       JObj [ ("load_demand_kWh"%string, load_demand l);
              ("grid_energy_kWh"%string, grid_energy l);
              ("excess_or_curtailed_energy_kWh"%string, num (e_excess l)) ]);
      ("battery_status"%string,
       JObj [ ("state_of_charge_percent"%string,
               num (soc (battery l) * 100)) ]);
      ("financial_analysis"%string,
       JObj [ ("life_cycle_cost_LCC"%string, num (lcc l));
              ("levelized_cost_of_energy_LCOE"%string, JFloat (lcoe l)) ]);
      ("environmental_impact"%string,
       JObj [ ("co2_emission_reduction_kg"%string, num (delta_co2 l)) ]);
      ("scenario_modeling_results"%string, JObj (scenario_results l));
      ("regression_analysis"%string, regression_results l) ].

Section Handler.

(** [LinearRegression().fit(x, y).predict(x)] of scikit-learn, on the
    sample points [x] and the outputs [y]. *)
Variable fit_predict : list Q -> list Q -> list Q.

(** [str(e)] for an exception other than a [KeyError]. *)
Variable str_exn : exn -> string.

Definition regression_analysis (solar_inputs : json) : result json :=
  area_pv <- getitem solar_inputs "area_pv" ;;
  efficiency_pv <- getitem solar_inputs "efficiency_pv" ;;
  area_pv <- as_number area_pv ;;
  efficiency_pv <- as_number efficiency_pv ;;
  let pv_output_samples :=
    map (fun i => calculate_pv_energy area_pv efficiency_pv i)
      irradiance_samples in
  let regression_line := fit_predict irradiance_samples pv_output_samples in
  Ok (JObj [ ("irradiance_data"%string, JArr (map num irradiance_samples));
             ("pv_output_data"%string, JArr (map num pv_output_samples));
             ("predicted_pv_output"%string, JArr (map num regression_line)) ]).

(** Lines 45-173: the computation after input validation. *)
Definition nzeb_locals (data : dict) : M trace locals :=
  solar_inputs <~ lift (getitem (JObj data) "solar_inputs") ;;
  wind_inputs <~ lift (getitem (JObj data) "wind_inputs") ;;
  biogas_inputs <~ lift (getitem (JObj data) "biogas_inputs") ;;
  load_demand <~ lift (getitem (JObj data) "load_demand") ;;
  grid_energy <~ lift (getitem (JObj data) "grid_energy") ;;
  battery_inputs <~ lift (getitem (JObj data) "battery_inputs") ;;
  lcca_inputs <~ lift (getitem (JObj data) "lcca_inputs") ;;
  co2_inputs <~ lift (getitem (JObj data) "co2_inputs") ;;
  e_pv <~ lift (request_e_pv solar_inputs) ;;
  e_wt <~ lift (request_e_wt wind_inputs) ;;
  e_bg <~ lift (request_e_bg biogas_inputs) ;;
  let total_energy_generated :=
    calculate_total_energy_generated e_pv e_wt e_bg in
  battery <~ lift (request_battery battery_inputs) ;;
  load <~ lift (as_number load_demand) ;;
  r <~ battery_simulation battery total_energy_generated load ;;
  let '(battery, energy_from_generation) := r in
  grid <~ lift (as_number grid_energy) ;;
  let e_excess :=
    calculate_energy_balance total_energy_generated grid load in
  let total_energy_per_year := total_energy_generated * 24 * 365 in
  lcc <~ lift (request_lcc lcca_inputs) ;;
  lcoe <~ lift (request_lcoe lcca_inputs lcc total_energy_per_year) ;;
  emission_factor <~ lift (getitem co2_inputs "emission_factor") ;;
  emission_factor <~ lift (as_number emission_factor) ;;
  let delta_co2 :=
    calculate_co2_reduction total_energy_generated emission_factor in
  scenario_results <~
    lift (scenario_modeling data total_energy_generated load) ;;
  regression_results <~ lift (regression_analysis solar_inputs) ;;
  ret (mkLocals e_pv e_wt e_bg total_energy_generated load_demand
         grid_energy battery energy_from_generation e_excess lcc lcoe
         delta_co2 scenario_results regression_results).

(** The body of the [try] block. *)
Definition nzeb_try (data : dict) : M trace (json * Z) :=
  if negb (has_required_keys data) then
    ret (JObj [ ("error"%string, JStr "Missing required input data") ],
         400%Z)
  else
    l <~ nzeb_locals data ;;
    ret (response l, 200%Z).

(** [nzeb_model]: the battery calls made, the response body and the HTTP
    status. *)
Definition nzeb_model (data : dict) : trace * (json * Z) :=
  match nzeb_try data [] with
  | (log, Ok resp) => (log, resp)
  | (log, Raise (KeyError key)) =>
      (log,
       (JObj [ ("error"%string,
                JStr ("Missing key in input data: '" ++ key ++ "'")) ],
        400%Z))
  | (log, Raise e) =>
      (log,
       (JObj [ ("error"%string,
                JStr ("An unexpected error occurred: " ++ str_exn e)) ],
        500%Z))
  end.

End Handler.

(* ===================================================================== *)
(** ** The formulas of the specification                                  *)
(* ===================================================================== *)

(** [sum_{y=1..n} of term(y) / (1+r)^y] *)
Fixpoint discounted_sum (term : Z -> Q) (r : Q) (n : nat) : Q :=
  match n with
  | O => 0
  | S k =>
      discounted_sum term r k
      + term (Z.of_nat (S k)) / (1 + r) ^ Z.of_nat (S k)
  end.

(** [annualCost(y) = C_om] for [y < n] and [C_om + C_rep - S] at [y = n]. *)
Definition annualCost (c_om c_rep s : Q) (n y : Z) : Q :=
  if (y <? n)%Z then c_om else c_om + c_rep - s.

Definition lcc_formula (c_init c_om c_rep s r : Q) (n : Z) : Q :=
  c_init + discounted_sum (annualCost c_om c_rep s n) r (Z.to_nat n).

Definition discounted_energy (e_total_per_year r : Q) (n : Z) : Q :=
  discounted_sum (fun _ => e_total_per_year) r (Z.to_nat n).

(** Reading a figure off a response: [body[section][key]]. *)
Definition figure (body : json) (section key : string) : option json :=
  match getitem body section with
  | Ok s =>
      match getitem s key with
      | Ok v => Some v
      | Raise _ => None
      end
  | Raise _ => None
  end.

(** [key in body] for a response body. *)
Definition has_section (body : json) (key : string) : bool :=
  match body with
  | JObj d => dict_in key d
  | _ => false
  end.

(* ===================================================================== *)
(** ** Sample requests                                                    *)
(* ===================================================================== *)

Definition sample_battery_inputs (capacity : Q) : json :=
  JObj [ ("capacity"%string, num capacity);
         ("eta_c"%string, num (9 # 10));
         ("eta_d"%string, num (9 # 10)) ].

(** A request generating 1.6 kWh of PV energy, no wind (below cut-in) and
    no biogas. *)
Definition sample_request (load : Q) (battery_inputs : json)
    (scenario : dict) : dict :=
  [ ("solar_inputs"%string,
     JObj [ ("area_pv"%string, JInt 10);
            ("efficiency_pv"%string, num (2 # 10));
            ("irradiance"%string, num (8 # 10)) ]);
    ("wind_inputs"%string,
     JObj [ ("air_density"%string, num (1225 # 1000));
            ("swept_area"%string, JInt 20);
            ("power_coefficient"%string, num (4 # 10));
            ("wind_speed"%string, JInt 2);
            ("v_cut_in"%string, JInt 3);
            ("v_rated"%string, JInt 12);
            ("v_cut_out"%string, JInt 25);
            ("p_rated"%string, JInt 5);
            ("delta_t"%string, JInt 1) ]);
    ("biogas_inputs"%string,
     JObj [ ("methane_yield"%string, num (3 # 10));
            ("mass_feedstock"%string, JInt 0);
            ("efficiency_bg"%string, num (35 # 100));
            ("hhv_ch4"%string, num (997 # 100)) ]);
    ("load_demand"%string, num load);
    ("grid_energy"%string, JInt 1);
    ("battery_inputs"%string, battery_inputs);
    ("lcca_inputs"%string,
     JObj [ ("c_init"%string, JInt 1000);
            ("c_om"%string, JInt 10);
            ("c_rep"%string, JInt 100);
            ("s"%string, JInt 20);
            ("r"%string, num (5 # 100));
            ("n"%string, JInt 1) ]);
    ("co2_inputs"%string,
     JObj [ ("emission_factor"%string, num (5 # 10)) ]) ] ++ scenario.

(** A stand-in for the regression of scikit-learn and for [str(e)], to run
    the handler on the sample requests. *)
Definition sample_fit_predict (x y : list Q) : list Q := y.

Definition sample_str_exn (e : exn) : string :=
  match e with
  | KeyError k => k
  | TypeError => "unsupported operand type"
  | AttributeError => "object has no attribute"
  | ZeroDivisionError => "division by zero"
  | OverflowError => "(34, 'Numerical result out of range')"
  end.

Definition sample_battery : Battery :=
  Battery_init 10 (1 # 2) (9 # 10) (8 # 10).

Definition sample_ok : dict := sample_request 1 (sample_battery_inputs 10) [].

(** A request whose panel sees no irradiance: nothing is generated. *)
Definition sample_dark : dict :=
  ("solar_inputs"%string,
   JObj [ ("area_pv"%string, JInt 10);
          ("efficiency_pv"%string, num (2 # 10));
          ("irradiance"%string, JInt 0) ]) :: sample_ok.

(* ===================================================================== *)
(** * Properties                                                          *)
(* ===================================================================== *)

(** ** Python arithmetic *)

Lemma py_min_Qmin (a b : Q) : py_min a b = Qmin a b.
Proof.
  unfold py_min, Qmin, GenericMinMax.gmin.
  rewrite <- (Qcompare_antisym a b).
  destruct (a ?= b); reflexivity.
Qed.

Lemma py_min_l (a b : Q) : a <= b -> py_min a b = a.
Proof.
  intros H. unfold py_min.
  destruct (b ?= a) eqn:E; try reflexivity.
  apply Qlt_alt in E. lra.
Qed.

Lemma py_min_r (a b : Q) : b < a -> py_min a b = b.
Proof.
  intros H. unfold py_min.
  now rewrite (proj1 (Qlt_alt b a) H).
Qed.

Lemma py_min_cases (a b : Q) :
  (a <= b /\ py_min a b = a) \/ (b < a /\ py_min a b = b).
Proof.
  destruct (Qlt_le_dec b a) as [H | H].
  - right. split; [assumption | now apply py_min_r].
  - left. split; [assumption | now apply py_min_l].
Qed.

Lemma Qltb_spec (x y : Q) : reflect (x < y) (Qltb x y).
Proof.
  unfold Qltb. destruct (x ?= y) eqn:E; constructor.
  - apply Qeq_alt in E. lra.
  - now apply Qlt_alt.
  - apply Qgt_alt in E. lra.
Qed.

Lemma Qleb_spec (x y : Q) : reflect (x <= y) (Qleb x y).
Proof.
  unfold Qleb. destruct (Qle_bool x y) eqn:E; constructor.
  - now apply Qle_bool_iff.
  - intros H. apply Qle_bool_iff in H. congruence.
Qed.

Lemma py_div_ok (x y : Q) : ~ y == 0 -> py_div x y = Ok (x / y).
Proof.
  intros H. unfold py_div.
  destruct (Qeq_bool y 0) eqn:E; [| reflexivity].
  apply Qeq_bool_iff in E. contradiction.
Qed.

Lemma py_div_zero (x y : Q) : y == 0 -> py_div x y = Raise ZeroDivisionError.
Proof.
  intros H. unfold py_div. apply Qeq_bool_iff in H. now rewrite H.
Qed.

(** ** The battery *)

Section BatteryFacts.

Variable b : Battery.
Hypothesis capacity_pos : 0 < capacity b.

Lemma charge_run (e : Q) :
  0 < eta_c b ->
  let stored := py_min ((1 - soc b) * capacity b) (e * eta_c b) in
  charge e b =
    (mkBattery (capacity b) (soc b + stored / capacity b) (eta_c b) (eta_d b),
     Ok (stored / eta_c b)).
Proof.
  intros Hc stored. unfold charge, bindM, self_, lift, set_soc. cbn.
  fold stored.
  rewrite (py_div_ok stored (capacity b)) by lra.
  rewrite (py_div_ok stored (eta_c b)) by lra.
  reflexivity.
Qed.

Lemma discharge_run (e : Q) :
  0 < eta_d b ->
  let delivered := py_min (soc b * capacity b * eta_d b) e in
  discharge e b =
    (mkBattery (capacity b) (soc b - delivered / eta_d b / capacity b)
       (eta_c b) (eta_d b),
     Ok delivered).
Proof.
  intros Hd delivered. unfold discharge, bindM, self_, lift, set_soc, ret.
  cbn. fold delivered.
  rewrite (py_div_ok delivered (eta_d b)) by lra.
  rewrite (py_div_ok (delivered / eta_d b) (capacity b)) by lra.
  reflexivity.
Qed.

End BatteryFacts.

(** *** The state of charge on doubles

    The methods clamp the energy moved, with [min], and then update [soc]
    with a rounded division and a rounded addition; [soc] itself is not
    clamped.  On doubles the update can therefore end one rounding error
    outside the range 0.0 to 1.0 that the constructor documents. *)

Section Doubles.

Import PrimFloat.
#[local] Set Warnings "-inexact-float".

(** C1. [Battery(3, 0.2, 0.9, 0.9).charge(1000)] is within the hypotheses
    (capacity > 0, efficiency in (0,1], a non-negative offer) and the
    headroom is the binding constraint.  The call returns
    [(1 - soc) * capacity / eta_c], but the final state of charge is
    1.0000000000000002, above 1 and not the exact 1 of the claim. *)
Theorem charge_on_doubles_ends_above_one :
  let b := Binary64.mkBattery 3 0.2 0.9 0.9 in
  let e := 1000%float in
  ((0 <? Binary64.capacity b) && (0 <? Binary64.eta_c b)
   && (Binary64.eta_c b <=? 1) && (0 <=? e)
   && ((1 - Binary64.soc b) * Binary64.capacity b
       <=? e * Binary64.eta_c b))%float = true
  /\ Binary64.charge e b
     = (Binary64.mkBattery 3 1.0000000000000002 0.9 0.9,
        Ok ((1 - Binary64.soc b) * Binary64.capacity b
            / Binary64.eta_c b)%float)
  /\ (1 <? 1.0000000000000002)%float = true
  /\ Binary64.soc_in_range (fst (Binary64.charge e b)) = false.
Proof.
  repeat split; vm_compute; reflexivity.
Qed.

(** C2. [Battery(1, 0.1, 0.8, 0.8).discharge(1000)] is within the hypotheses
    and requests more than is available.  The call returns
    [soc * capacity * eta_d], but the final state of charge is
    -1.3877787807814457e-17, below 0 and not the exact 0 of the claim. *)
Theorem discharge_on_doubles_ends_below_zero :
  let b := Binary64.mkBattery 1 0.1 0.8 0.8 in
  let e := 1000%float in
  ((0 <? Binary64.capacity b) && (0 <? Binary64.eta_d b)
   && (Binary64.eta_d b <=? 1) && (0 <=? e)
   && (Binary64.soc b * Binary64.capacity b * Binary64.eta_d b <? e))%float
  = true
  /\ Binary64.discharge e b
     = (Binary64.mkBattery 1 (-1.3877787807814457e-17) 0.8 0.8,
        Ok (Binary64.soc b * Binary64.capacity b * Binary64.eta_d b)%float)
  /\ (-1.3877787807814457e-17 <? 0)%float = true
  /\ Binary64.soc_in_range (fst (Binary64.discharge e b)) = false.
Proof.
  repeat split; vm_compute; reflexivity.
Qed.

(** C3. Both batteries start with [soc] in [0,1], capacity > 0 and
    efficiencies in (0,1].  [charge(1000)] then [discharge(0)] on the first
    return and leave [soc] at 1.0000000000000002; [discharge(1000)] then
    [charge(0)] on the second return and leave [soc] at
    -1.3877787807814457e-17.  Neither final state of charge is in [0,1]. *)
Theorem soc_leaves_unit_interval_on_doubles :
  let b := Binary64.mkBattery 3 0.2 0.9 0.9 in
  let b' := Binary64.mkBattery 1 0.1 0.8 0.8 in
  (Binary64.soc_in_range b = true /\ Binary64.soc_in_range b' = true)
  /\ (exists (b1 b2 : Binary64.Battery) (consumed delivered : float),
        Binary64.charge 1000 b = (b1, Ok consumed)
        /\ Binary64.discharge 0 b1 = (b2, Ok delivered)
        /\ Binary64.soc b2 = 1.0000000000000002%float
        /\ Binary64.soc_in_range b2 = false)
  /\ (exists (b1 b2 : Binary64.Battery) (delivered consumed : float),
        Binary64.discharge 1000 b' = (b1, Ok delivered)
        /\ Binary64.charge 0 b1 = (b2, Ok consumed)
        /\ Binary64.soc b2 = (-1.3877787807814457e-17)%float
        /\ Binary64.soc_in_range b2 = false).
Proof.
  split; [split; vm_compute; reflexivity |].
  split; eexists _, _, _, _;
    (split; [vm_compute; reflexivity |]);
    (split; [vm_compute; reflexivity |]);
    split; vm_compute; reflexivity.
Qed.

End Doubles.

(** ** Wind power *)

(** C4. With [v_cut_in <= v_rated <= v_cut_out], [calculate_wind_power] is
    0 below cut-in and above cut-out, the cubic value
    [0.5 * rho * area * v^3 * cp / 1000] from cut-in to the rated speed,
    both ends included (so at [v = v_rated] whatever [p_rated] is), and
    [p_rated] strictly above the rated speed up to cut-out included. *)
Theorem wind_power_piecewise
    (rho area cp v v_cut_in v_rated v_cut_out p_rated : Q) :
  v_cut_in <= v_rated -> v_rated <= v_cut_out ->
  let power :=
    calculate_wind_power rho area cp v v_cut_in v_rated v_cut_out p_rated in
  (v < v_cut_in -> power = 0)
  /\ (v_cut_out < v -> power = 0)
  /\ (v_cut_in <= v <= v_rated ->
      power == ((1 # 2) * rho * area * v ^ 3 * cp) / 1000)
  /\ (v == v_rated ->
      power == ((1 # 2) * rho * area * v_rated ^ 3 * cp) / 1000)
  /\ (v_rated < v <= v_cut_out -> power = p_rated).
Proof.
  intros Hin Hout power.
  assert (Hcubic : v_cut_in <= v <= v_rated ->
            power == ((1 # 2) * rho * area * v ^ 3 * cp) / 1000).
  { intros [H1 H2]. unfold power, calculate_wind_power.
    destruct (Qltb_spec v v_cut_in); [lra |].
    destruct (Qltb_spec v_cut_out v); [lra |].
    destruct (Qleb_spec v_cut_in v); [| lra].
    destruct (Qleb_spec v v_rated); [| lra].
    cbn [orb andb]. field. }
  split; [| split; [| split; [| split]]].
  - intros H. unfold power, calculate_wind_power.
    destruct (Qltb_spec v v_cut_in); [reflexivity | lra].
  - intros H. unfold power, calculate_wind_power.
    destruct (Qltb_spec v_cut_out v); [| lra].
    now rewrite orb_true_r.
  - exact Hcubic.
  - intros E. rewrite Hcubic by lra. now rewrite E.
  - intros [H1 H2]. unfold power, calculate_wind_power.
    destruct (Qltb_spec v v_cut_in); [lra |].
    destruct (Qltb_spec v_cut_out v); [lra |].
    destruct (Qleb_spec v v_rated); [lra |].
    destruct (Qltb_spec v_rated v); [| lra].
    destruct (Qleb_spec v v_cut_out); [| lra].
    now rewrite andb_false_r.
Qed.

Lemma wind_power_piecewise_witness :
  calculate_wind_power (1225 # 1000) 20 (4 # 10) 12 3 12 25 5
  == ((1 # 2) * (1225 # 1000) * 20 * 12 ^ 3 * (4 # 10)) / 1000.
Proof.
  assert (Hin : 3 <= 12) by (vm_compute; congruence).
  assert (Hout : 12 <= 25) by (vm_compute; congruence).
  destruct (wind_power_piecewise (1225 # 1000) 20 (4 # 10) 12 3 12 25 5
              Hin Hout) as (_ & _ & _ & Hrated & _).
  apply Hrated. reflexivity.
Defined.

(** ** Life cycle cost and levelized cost of energy *)

Lemma for_each_app {A B : Type} (xs ys : list A) (body : B -> A -> result B)
    (acc : B) :
  for_each (xs ++ ys) body acc
  = acc' <- for_each xs body acc ;; for_each ys body acc'.
Proof.
  revert acc. induction xs as [| x xs IH]; intros acc; cbn.
  - reflexivity.
  - destruct (body acc x); cbn; [apply IH | reflexivity].
Qed.

Lemma py_range_from_1 (n : Z) :
  py_range 1 (n + 1) = map (fun i => (1 + Z.of_nat i)%Z) (seq 0 (Z.to_nat n)).
Proof.
  unfold py_range. now replace (n + 1 - 1)%Z with n by lia.
Qed.

(** *** The power on the range of doubles *)

Lemma in_double_range_wd (p q : Q) :
  p == q -> in_double_range p = in_double_range q.
Proof.
  intros E. unfold in_double_range. now rewrite E.
Qed.

Lemma in_double_range_nonzero (q : Q) : in_double_range q = true -> ~ q == 0.
Proof.
  unfold in_double_range. intros H E. rewrite E in H.
  apply andb_prop in H. destruct H as [_ H]. vm_compute in H. discriminate.
Qed.

Lemma py_pow_in_range (x : Q) (y : Z) :
  in_double_range (x ^ y) = true -> py_pow x y = Ok (x ^ y).
Proof.
  intros H. unfold py_pow.
  destruct (Qeq_bool x 0 && (y <? 0)%Z) eqn:Ez.
  - exfalso. apply andb_prop in Ez. destruct Ez as [Ex Ey].
    apply Qeq_bool_iff in Ex. apply Z.ltb_lt in Ey.
    apply (in_double_range_nonzero _ H).
    rewrite Ex. apply Qpower_0. lia.
  - unfold in_double_range in H. apply andb_prop in H. destruct H as [H1 H2].
    apply negb_true_iff in H1, H2. cbn zeta. now rewrite H1, H2.
Qed.

Lemma py_pow_overflow (x : Q) (y : Z) :
  (0 <= y)%Z ->
  Qle_bool float_overflow_threshold (Qabs (x ^ y)) = true ->
  py_pow x y = Raise OverflowError.
Proof.
  intros Hy H. unfold py_pow.
  replace (y <? 0)%Z with false by (symmetry; apply Z.ltb_ge; lia).
  rewrite andb_false_r. cbn zeta. now rewrite H.
Qed.

Lemma py_pow_zero (x : Q) (y : Z) :
  (0 <= y)%Z -> x ^ y == 0 -> py_pow x y = Ok 0.
Proof.
  intros Hy E. unfold py_pow.
  replace (y <? 0)%Z with false by (symmetry; apply Z.ltb_ge; lia).
  rewrite andb_false_r. cbn zeta.
  assert (H1 : Qle_bool float_overflow_threshold (Qabs (x ^ y)) = false)
    by (rewrite E; reflexivity).
  assert (H2 : Qle_bool (Qabs (x ^ y)) float_underflow_threshold = true)
    by (rewrite E; reflexivity).
  now rewrite H1, H2.
Qed.

(** A power of a base of magnitude 1 or more lies in the range when the
    last one does. *)
Lemma growing_powers_in_range (x : Q) (n y : Z) :
  1 <= x -> (0 <= y <= n)%Z ->
  in_double_range (x ^ n) = true -> in_double_range (x ^ y) = true.
Proof.
  intros Hx Hy H.
  assert (H1 : 1 <= x ^ y).
  { change 1 with (x ^ 0). apply Qpower_le_compat_l; [lia | exact Hx]. }
  assert (H2 : x ^ y <= x ^ n) by (apply Qpower_le_compat_l; [lia | exact Hx]).
  unfold in_double_range in *. apply andb_prop in H. destruct H as [Hn _].
  apply negb_true_iff in Hn. apply andb_true_intro. split.
  - apply negb_true_iff. destruct (Qle_bool _ (Qabs (x ^ y))) eqn:E;
      [| reflexivity].
    apply Qle_bool_iff in E. rewrite Qabs_pos in E by lra.
    assert (Hc : Qle_bool float_overflow_threshold (Qabs (x ^ n)) = true).
    { apply Qle_bool_iff. rewrite Qabs_pos by lra. lra. }
    congruence.
  - apply negb_true_iff. destruct (Qle_bool (Qabs (x ^ y)) _) eqn:E;
      [| reflexivity].
    apply Qle_bool_iff in E. rewrite Qabs_pos in E by lra.
    assert (Ht : float_underflow_threshold < 1) by reflexivity.
    lra.
Qed.

Section Discounting.

Variable r : Q.

(** The accumulation loop shared by [calculate_lcc] and [calculate_lcoe]
    adds the discounted terms of the years 1..k, as long as the discount
    factors are in the range of doubles. *)
Lemma discount_loop (term : Z -> Q) (k : nat) (acc : Q) :
  (forall y : Z,
      (1 <= y <= Z.of_nat k)%Z -> in_double_range ((1 + r) ^ y) = true) ->
  exists v : Q,
    for_each (map (fun i => (1 + Z.of_nat i)%Z) (seq 0 k))
      (fun acc y =>
         d <- py_pow (1 + r) y ;;
         t <- py_div (term y) d ;;
         Ok (acc + t))
      acc
    = Ok v
    /\ v == acc + discounted_sum term r k.
Proof.
  induction k as [| k IH]; intros Hrange.
  - exists acc. split; [reflexivity |]. cbn. lra.
  - destruct IH as (v & Hrun & Hv); [intros y Hy; apply Hrange; lia |].
    rewrite seq_S, map_app, for_each_app, Hrun. cbn [bind map for_each plus].
    replace (1 + Z.of_nat k)%Z with (Z.of_nat (S k)) by lia.
    assert (Hin : in_double_range ((1 + r) ^ Z.of_nat (S k)) = true)
      by (apply Hrange; lia).
    rewrite (py_pow_in_range _ _ Hin). cbn [bind].
    rewrite py_div_ok by (apply in_double_range_nonzero; exact Hin).
    cbn [bind]. eexists. split; [reflexivity |].
    cbn [discounted_sum]. rewrite Hv. ring.
Qed.

(** When the factor of year [k + 1] is the first beyond the range, the loop
    raises there. *)
Lemma discount_loop_overflow (term : Z -> Q) (k : nat) (acc : Q) :
  (forall y : Z,
      (1 <= y <= Z.of_nat k)%Z -> in_double_range ((1 + r) ^ y) = true) ->
  Qle_bool float_overflow_threshold (Qabs ((1 + r) ^ Z.of_nat (S k))) = true ->
  for_each (map (fun i => (1 + Z.of_nat i)%Z) (seq 0 (S k)))
    (fun acc y =>
       d <- py_pow (1 + r) y ;;
       t <- py_div (term y) d ;;
       Ok (acc + t))
    acc
  = Raise OverflowError.
Proof.
  intros Hrange Hover.
  destruct (discount_loop term k acc Hrange) as (v & Hrun & _).
  rewrite seq_S, map_app, for_each_app, Hrun. cbn [bind map for_each plus].
  replace (1 + Z.of_nat k)%Z with (Z.of_nat (S k)) by lia.
  rewrite py_pow_overflow by (assumption || lia). reflexivity.
Qed.

Lemma discounted_sum_ext (f g : Z -> Q) (k : nat) :
  (forall y : Z, (1 <= y <= Z.of_nat k)%Z -> f y == g y) ->
  discounted_sum f r k == discounted_sum g r k.
Proof.
  induction k as [| k IH]; intros H.
  - reflexivity.
  - cbn [discounted_sum]. rewrite IH by (intros y Hy; apply H; lia).
    rewrite (H (Z.of_nat (S k))) by lia. reflexivity.
Qed.

Lemma discounted_sum_zero (e : Q) (k : nat) :
  e == 0 -> discounted_sum (fun _ => e) r k == 0.
Proof.
  intros He. induction k as [| k IH].
  - reflexivity.
  - cbn [discounted_sum]. rewrite IH, He. unfold Qdiv. ring.
Qed.

End Discounting.

(** What [calculate_lcc] returns while the discount factors are in range. *)
Lemma calculate_lcc_sum (c_init c_om c_rep s r : Q) (n : Z) :
  (forall y : Z, (1 <= y <= n)%Z -> in_double_range ((1 + r) ^ y) = true) ->
  exists v : Q,
    calculate_lcc c_init c_om c_rep s r n = Ok v
    /\ v == c_init
            + discounted_sum
                (fun y => if (y =? n)%Z then c_om + (c_rep - s) else c_om)
                r (Z.to_nat n).
Proof.
  intros Hrange. unfold calculate_lcc. rewrite py_range_from_1.
  apply (discount_loop r). intros y Hy. apply Hrange. lia.
Qed.

(** The factors [2.5 ^ y] stay in the range up to year 774 and leave it in
    year 775. *)
Lemma factors_of_rate_3_2 :
  (forall y : Z,
      (1 <= y <= 774)%Z -> in_double_range ((1 + (3 # 2)) ^ y) = true)
  /\ Qle_bool float_overflow_threshold (Qabs ((1 + (3 # 2)) ^ 775)) = true.
Proof.
  split.
  - intros y Hy. apply (growing_powers_in_range _ 774);
      [vm_compute; discriminate | lia | vm_compute; reflexivity].
  - vm_compute. reflexivity.
Qed.

(** C5, as the claim states it, fails: with the discount rate 1.5 and a
    horizon of 775 years the factor [2.5 ** 775] is beyond the range of
    doubles, so [calculate_lcc(1000, 10, 100, 20, 1.5, 775)] raises
    [OverflowError] instead of returning the sum. *)
Lemma lcc_raises_beyond_the_range_of_doubles :
  ~ (forall (c_init c_om c_rep s r : Q) (n : Z),
        ~ r == -1 -> (1 <= n)%Z ->
        exists v : Q,
          calculate_lcc c_init c_om c_rep s r n = Ok v
          /\ v == lcc_formula c_init c_om c_rep s r n).
Proof.
  intros H.
  destruct (H 1000 10 100 20 (3 # 2) 775%Z) as (v & Hrun & _);
    [vm_compute; discriminate | lia |].
  assert (Hraise : calculate_lcc 1000 10 100 20 (3 # 2) 775
                   = Raise OverflowError).
  { unfold calculate_lcc. rewrite py_range_from_1.
    change (Z.to_nat 775) with (S 774).
    destruct factors_of_rate_3_2 as (Hin & Hover).
    apply discount_loop_overflow.
    - intros y Hy. apply Hin. lia.
    - exact Hover. }
  congruence.
Qed.

(** C5, as amended.  For [r <> -1] and a whole [n >= 1] whose discount
    factors [(1+r)^y], [y = 1..n], are in the range of doubles,
    [calculate_lcc] returns
    [C_init + sum_{y=1..n} of annualCost(y) / (1+r)^y] with
    [annualCost(y) = C_om] for [y < n] and [C_om + C_rep - S] at [y = n]; and
    [LCC(1000, 10, 100, 20, 0.05, 1) = 1000 + (10+100-20)/1.05]. *)
Theorem lcc_is_discounted_cost_sum (c_init c_om c_rep s r : Q) (n : Z) :
  ~ r == -1 -> (1 <= n)%Z ->
  (forall y : Z, (1 <= y <= n)%Z -> in_double_range ((1 + r) ^ y) = true) ->
  (exists v : Q,
      calculate_lcc c_init c_om c_rep s r n = Ok v
      /\ v == lcc_formula c_init c_om c_rep s r n)
  /\ (exists v : Q,
      calculate_lcc 1000 10 100 20 (5 # 100) 1 = Ok v
      /\ v == 1000 + (10 + 100 - 20) / (105 # 100)).
Proof.
  intros _ Hn Hrange. split.
  - destruct (calculate_lcc_sum c_init c_om c_rep s r n Hrange)
      as (v & Hrun & Hv).
    exists v. split; [exact Hrun |]. rewrite Hv. unfold lcc_formula.
    apply Qplus_inj_l. apply discounted_sum_ext. intros y Hy.
    unfold annualCost.
    destruct (Z.eqb_spec y n) as [-> | Hne].
    + rewrite Z.ltb_irrefl. ring.
    + destruct (Z.ltb_spec y n); [reflexivity | lia].
  - eexists. split; [vm_compute; reflexivity | vm_compute; reflexivity].
Qed.

Lemma lcc_is_discounted_cost_sum_witness :
  exists v : Q,
    calculate_lcc 5000 40 300 100 (8 # 100) 3 = Ok v
    /\ v == 5000 + (40 / (108 # 100) + 40 / (108 # 100) ^ 2
                    + (40 + 300 - 100) / (108 # 100) ^ 3).
Proof.
  assert (Hr : ~ (8 # 100) == -1) by (vm_compute; congruence).
  assert (Hn : (1 <= 3)%Z) by lia.
  assert (Hrange : forall y : Z,
             (1 <= y <= 3)%Z ->
             in_double_range ((1 + (8 # 100)) ^ y) = true).
  { intros y Hy. apply (growing_powers_in_range _ 3);
      [vm_compute; discriminate | lia | vm_compute; reflexivity]. }
  destruct (lcc_is_discounted_cost_sum 5000 40 300 100 (8 # 100) 3
              Hr Hn Hrange) as ((v & Hrun & Hv) & _).
  exists v. split; [exact Hrun |]. rewrite Hv. vm_compute. reflexivity.
Defined.

(** C6, as the claim states it, fails: with no annual energy, the discount
    rate 1.5 and a horizon of 775 years,
    [calculate_lcoe(1000, 0, 1.5, 775)] raises [OverflowError] instead of
    returning positive infinity. *)
Lemma lcoe_raises_beyond_the_range_of_doubles :
  ~ (forall (lcc e_total_per_year r : Q) (n : Z),
        ~ r == -1 -> (1 <= n)%Z -> e_total_per_year == 0 ->
        calculate_lcoe lcc e_total_per_year r n = Ok Inf).
Proof.
  intros H.
  assert (Hok : calculate_lcoe 1000 0 (3 # 2) 775 = Ok Inf).
  { apply H; [vm_compute; discriminate | lia | reflexivity]. }
  assert (Hraise : calculate_lcoe 1000 0 (3 # 2) 775 = Raise OverflowError).
  { unfold calculate_lcoe. rewrite py_range_from_1.
    change (Z.to_nat 775) with (S 774).
    destruct factors_of_rate_3_2 as (Hin & Hover).
    rewrite discount_loop_overflow; [reflexivity | | exact Hover].
    intros y Hy. apply Hin. lia. }
  congruence.
Qed.

(** C6, as amended.  For [r <> -1] and a whole [n >= 1] whose discount
    factors [(1+r)^y], [y = 1..n], are in the range of doubles,
    [calculate_lcoe] returns [lcc] divided by
    [sum_{y=1..n} of e_total_per_year / (1+r)^y] when that sum is not 0, and
    returns positive infinity, without raising, when the sum is 0; the
    latter whenever [e_total_per_year = 0]. *)
Theorem lcoe_is_lcc_over_discounted_energy (lcc e_total_per_year r : Q) (n : Z) :
  ~ r == -1 -> (1 <= n)%Z ->
  (forall y : Z, (1 <= y <= n)%Z -> in_double_range ((1 + r) ^ y) = true) ->
  let total := discounted_energy e_total_per_year r n in
  (~ total == 0 ->
   exists v : Q,
     calculate_lcoe lcc e_total_per_year r n = Ok (Finite v)
     /\ v == lcc / total)
  /\ (total == 0 -> calculate_lcoe lcc e_total_per_year r n = Ok Inf)
  /\ (e_total_per_year == 0 ->
      calculate_lcoe lcc e_total_per_year r n = Ok Inf).
Proof.
  intros _ Hn Hrange total.
  destruct (discount_loop r (fun _ => e_total_per_year) (Z.to_nat n) 0)
    as (v & Hrun & Hv); [intros y Hy; apply Hrange; lia |].
  assert (Hvt : v == total) by (rewrite Hv; unfold total, discounted_energy; ring).
  assert (Hinf : total == 0 ->
            calculate_lcoe lcc e_total_per_year r n = Ok Inf).
  { intros H0. unfold calculate_lcoe. rewrite py_range_from_1, Hrun.
    cbn [bind]. rewrite (Qeq_eq_bool v 0) by (rewrite Hvt; exact H0).
    reflexivity. }
  split; [| split].
  - intros Hne. unfold calculate_lcoe. rewrite py_range_from_1, Hrun.
    cbn [bind].
    destruct (Qeq_bool v 0) eqn:E.
    + apply Qeq_bool_iff in E. rewrite Hvt in E. contradiction.
    + rewrite py_div_ok by (rewrite Hvt; exact Hne). cbn [bind].
      eexists. split; [reflexivity |]. now rewrite Hvt.
  - exact Hinf.
  - intros He. apply Hinf. unfold total, discounted_energy.
    now apply discounted_sum_zero.
Qed.

Lemma lcoe_is_lcc_over_discounted_energy_witness :
  (exists v : Q,
      calculate_lcoe 1000 50 (5 # 100) 2 = Ok (Finite v)
      /\ v == 1000 / (50 / (105 # 100) + 50 / (105 # 100) ^ 2))
  /\ calculate_lcoe 1000 50 (-2) 2 = Ok Inf
  /\ calculate_lcoe 1000 0 (5 # 100) 2 = Ok Inf.
Proof.
  assert (Hr : ~ (5 # 100) == -1) by (vm_compute; congruence).
  assert (Hr' : ~ -2 == -1) by (vm_compute; congruence).
  assert (Hn : (1 <= 2)%Z) by lia.
  assert (Hrange : forall y : Z,
             (1 <= y <= 2)%Z ->
             in_double_range ((1 + (5 # 100)) ^ y) = true).
  { intros y Hy. apply (growing_powers_in_range _ 2);
      [vm_compute; discriminate | lia | vm_compute; reflexivity]. }
  assert (Hrange' : forall y : Z,
             (1 <= y <= 2)%Z -> in_double_range ((1 + -2) ^ y) = true).
  { intros y Hy. assert (E : y = 1%Z \/ y = 2%Z) by lia.
    destruct E as [-> | ->]; vm_compute; reflexivity. }
  split; [| split].
  - destruct (lcoe_is_lcc_over_discounted_energy 1000 50 (5 # 100) 2
                Hr Hn Hrange) as (Hfin & _).
    destruct Hfin as (v & Hrun & Hv); [vm_compute; congruence |].
    exists v. split; [exact Hrun |]. rewrite Hv. vm_compute. reflexivity.
  - destruct (lcoe_is_lcc_over_discounted_energy 1000 50 (-2) 2
                Hr' Hn Hrange') as (_ & Hinf & _).
    apply Hinf. vm_compute. reflexivity.
  - destruct (lcoe_is_lcc_over_discounted_energy 1000 0 (5 # 100) 2
                Hr Hn Hrange) as (_ & _ & Hzero).
    apply Hzero. reflexivity.
Defined.

(** ** The request handler *)


Ltac invert_result H :=
  match type of H with
  | context [match ?c with Ok _ => _ | Raise _ => _ end] =>
      destruct c eqn:?; try discriminate H
  end.

(** On numbers the wind model of the handler is [calculate_wind_energy]. *)
Lemma calculate_wind_energy_on_numbers
    (jrho jarea jcp jv jv_cut_in jv_rated jv_cut_out jp_rated jdelta_t : json)
    (rho area cp v v_cut_in v_rated v_cut_out p_rated delta_t : Q) :
  as_number jrho = Ok rho -> as_number jarea = Ok area ->
  as_number jcp = Ok cp -> as_number jv = Ok v ->
  as_number jv_cut_in = Ok v_cut_in -> as_number jv_rated = Ok v_rated ->
  as_number jv_cut_out = Ok v_cut_out -> as_number jp_rated = Ok p_rated ->
  as_number jdelta_t = Ok delta_t ->
  calculate_wind_energy_on_request jrho jarea jcp jv jv_cut_in jv_rated
    jv_cut_out jp_rated jdelta_t
  = Ok (calculate_wind_energy rho area cp v v_cut_in v_rated v_cut_out
          p_rated delta_t).
Proof.
  intros Hrho Harea Hcp Hv Hin Hrated Hout Hp Hdt.
  unfold calculate_wind_energy_on_request, calculate_wind_power_on_request,
    calculate_wind_energy, calculate_wind_power, bind.
  rewrite Hv, Hin.
  destruct (Qltb v v_cut_in); cbn [orb]; [now rewrite Hdt |].
  rewrite Hout.
  destruct (Qltb v_cut_out v); [cbn; now rewrite Hdt |].
  rewrite Hrated.
  destruct (Qleb v_cut_in v && Qleb v v_rated).
  - rewrite Hrho, Harea, Hcp. cbn. now rewrite Hdt.
  - destruct (Qltb v_rated v && Qleb v v_cut_out).
    + now rewrite Hp, Hdt.
    + cbn. now rewrite Hdt.
Qed.

(** Below the cut-in speed the wind model reads the wind speed, the cut-in
    speed and the interval only; the other fields may hold any value. *)
Lemma calculate_wind_energy_below_cut_in
    (rho area cp jv jv_cut_in v_rated v_cut_out p_rated jdelta_t : json)
    (v v_cut_in delta_t : Q) :
  as_number jv = Ok v -> as_number jv_cut_in = Ok v_cut_in ->
  as_number jdelta_t = Ok delta_t ->
  v < v_cut_in ->
  calculate_wind_energy_on_request rho area cp jv jv_cut_in v_rated
    v_cut_out p_rated jdelta_t
  = Ok (0 * delta_t).
Proof.
  intros Hv Hin Hdt Hlt.
  unfold calculate_wind_energy_on_request, calculate_wind_power_on_request,
    bind.
  rewrite Hv, Hin.
  destruct (Qltb_spec v v_cut_in) as [_ | H]; [| lra].
  cbn. now rewrite Hdt.
Qed.




Lemma has_required_keys_inv (data : dict) :
  has_required_keys data = true ->
  forall key, In key required_keys ->
    exists v, getitem (JObj data) key = Ok v.
Proof.
  unfold has_required_keys. intros H key Hin.
  rewrite forallb_forall in H. specialize (H key Hin).
  unfold dict_in in H. cbn. destruct (dict_get key data); [| discriminate].
  eexists. reflexivity.
Qed.

Lemma scenario_modeling_without_outage (data : dict) (total load : Q) :
  eq_str (dict_get "scenario" data) "grid_outage" = false ->
  scenario_modeling data total load = Ok [].
Proof.
  intros H. unfold scenario_modeling. now rewrite H.
Qed.

Lemma scenario_modeling_outage (data : dict) (total load : Q) (results : dict) :
  eq_str (dict_get "scenario" data) "grid_outage" = true ->
  scenario_modeling data total load = Ok results ->
  exists uptime : Q,
    results
    = [ ("grid_outage"%string,
         JObj [ ("message"%string,
                 JStr "Simulation for grid outage scenario.");
                ("excess_energy_during_outage_kWh"%string,
                 num (calculate_energy_balance total 0 load));
                ("system_uptime_percentage"%string, num uptime) ]) ]
    /\ (0 < load -> uptime == Qmin 100 (total / load * 100))
    /\ (load <= 0 -> uptime == 100).
Proof.
  intros Htag. unfold scenario_modeling. rewrite Htag.
  destruct (Qltb_spec 0 load) as [Hpos | Hneg].
  - rewrite py_div_ok by lra. cbn [bind]. intros H. injection H as <-.
    eexists. split; [reflexivity |]. split; [| lra].
    intros _. rewrite py_min_Qmin. apply Q.min_comm.
  - cbn [bind]. intros H. injection H as <-.
    eexists. split; [reflexivity |]. split; [lra |].
    intros _. rewrite py_min_Qmin. now rewrite Q.min_l by lra.
Qed.

(** Two requests that agree outside ["battery_inputs"] reach the battery
    simulation with the same generation and the same load. *)
Lemma simulation_inputs_frame (data data' : dict) (b0 b0' : Battery)
    (total load total' load' : Q) :
  (forall key : string,
      key <> "battery_inputs"%string -> dict_get key data' = dict_get key data) ->
  simulation_inputs data = Ok (b0, total, load) ->
  simulation_inputs data' = Ok (b0', total', load') ->
  total' = total /\ load' = load.
Proof.
  intros Hframe H H'. unfold simulation_inputs, bind, getitem in H, H'.
  rewrite !Hframe in H' by discriminate.
  repeat invert_result H. injection H as _ <- <-.
  repeat invert_result H'. injection H' as _ <- <-.
  split; reflexivity.
Qed.

Section HandlerFacts.

Variable fit_predict : list Q -> list Q -> list Q.
Variable str_exn : exn -> string.


(** What a run of [nzeb_locals] that returns has computed. *)
Lemma nzeb_locals_inv (data : dict) (log calls : trace) (l : locals) :
  nzeb_locals fit_predict data log = (calls, Ok l) ->
  exists (b0 : Battery) (load grid : Q),
    simulation_inputs data = Ok (b0, total_energy_generated l, load)
    /\ battery_simulation b0 (total_energy_generated l) load log
       = (calls, Ok (battery l, energy_from_generation l))
    /\ getitem (JObj data) "load_demand" = Ok (load_demand l)
    /\ as_number (load_demand l) = Ok load
    /\ getitem (JObj data) "grid_energy" = Ok (grid_energy l)
    /\ as_number (grid_energy l) = Ok grid
    /\ e_excess l
       = calculate_energy_balance (total_energy_generated l) grid load
    /\ scenario_modeling data (total_energy_generated l) load
       = Ok (scenario_results l).
Proof.
  intros H. unfold nzeb_locals, bindM, lift in H.
  repeat invert_result H.
  all: destruct (battery_simulation _ _ _ log) as [log' [[b1 efg] | e']]
         eqn:Hsim;
    cbv beta iota in H; try discriminate H.
  unfold ret in H. injection H as <- <-. cbn.
  eexists _, _, _. repeat split; try eassumption.
  unfold simulation_inputs, bind.
  repeat match goal with
         | E : ?c = Ok _ |- context [?c] => rewrite E
         end.
  reflexivity.
Qed.

(** A 200 response is the response dict of a run that returned. *)
Lemma nzeb_model_200 (data : dict) (calls : trace) (body : json) :
  nzeb_model fit_predict str_exn data = (calls, (body, 200%Z)) ->
  exists l : locals,
    nzeb_locals fit_predict data [] = (calls, Ok l) /\ body = response l.
Proof.
  unfold nzeb_model, nzeb_try, bindM, ret.
  destruct (has_required_keys data); cbn [negb]; [| discriminate].
  destruct (nzeb_locals fit_predict data []) as [log [l | e]].
  - intros H. injection H as <- <-. exists l. split; reflexivity.
  - destruct e; discriminate.
Qed.



(** C8, as amended.  Every 200 response has the section
    ["scenario_modeling_results"]; for a request without a scenario tag the
    section is the empty object, and the section holds an entry only when
    the tag is ["grid_outage"]. *)
Theorem scenario_section_filled_only_on_request
    (data : dict) (calls : trace) (body : json) :
  nzeb_model fit_predict str_exn data = (calls, (body, 200%Z)) ->
  has_section body "scenario_modeling_results" = true
  /\ (dict_get "scenario" data = None ->
      getitem body "scenario_modeling_results" = Ok (JObj []))
  /\ (forall (key : string) (entry : json),
        figure body "scenario_modeling_results" key = Some entry ->
        dict_get "scenario" data = Some (JStr "grid_outage")).
Proof.
  intros H. destruct (nzeb_model_200 data calls body H) as (l & Hrun & ->).
  destruct (nzeb_locals_inv data [] calls l Hrun)
    as (b0 & load & grid & _ & _ & _ & _ & _ & _ & _ & Hsc).
  split; [reflexivity |]. split.
  - intros Hnone.
    rewrite scenario_modeling_without_outage in Hsc by now rewrite Hnone.
    injection Hsc as Hsc. cbn. now rewrite <- Hsc.
  - intros key entry Hentry.
    destruct (eq_str (dict_get "scenario" data) "grid_outage") eqn:Htag.
    + unfold eq_str in Htag.
      destruct (dict_get "scenario" data) as [[| | | | t | |] |];
        try discriminate.
      apply String.eqb_eq in Htag. now subst t.
    + rewrite scenario_modeling_without_outage in Hsc by assumption.
      injection Hsc as Hsc. unfold figure in Hentry. cbn in Hentry.
      rewrite <- Hsc in Hentry. discriminate.
Qed.

(** C9. In the 200 response to a request tagged ["grid_outage"], the
    scenario entry reports the energy balance with the grid at 0, which is
    the total generated minus the load, and an uptime percentage of
    [min(100, total / load * 100)] when the load is positive and of 100
    otherwise. *)
Theorem grid_outage_scenario_report
    (data : dict) (calls : trace) (body : json) :
  nzeb_model fit_predict str_exn data = (calls, (body, 200%Z)) ->
  dict_get "scenario" data = Some (JStr "grid_outage") ->
  exists (total load excess uptime : Q) (load_field entry : json),
    figure body "energy_generation" "total_generated_kWh" = Some (num total)
    /\ figure body "energy_balance" "load_demand_kWh" = Some load_field
    /\ as_number load_field = Ok load
    /\ figure body "scenario_modeling_results" "grid_outage" = Some entry
    /\ getitem entry "excess_energy_during_outage_kWh" = Ok (num excess)
    /\ excess = calculate_energy_balance total 0 load
    /\ excess == total - load
    /\ getitem entry "system_uptime_percentage" = Ok (num uptime)
    /\ (0 < load -> uptime == Qmin 100 (total / load * 100))
    /\ (load <= 0 -> uptime == 100).
Proof.
  intros H Htag. destruct (nzeb_model_200 data calls body H) as (l & Hrun & ->).
  destruct (nzeb_locals_inv data [] calls l Hrun)
    as (b0 & load & grid & _ & _ & _ & Hload & _ & _ & _ & Hsc).
  destruct (scenario_modeling_outage data (total_energy_generated l) load
              (scenario_results l)) as (uptime & Hres & Hpos & Hneg);
    [now rewrite Htag | exact Hsc |].
  exists (total_energy_generated l), load,
    (calculate_energy_balance (total_energy_generated l) 0 load), uptime,
    (load_demand l).
  eexists. unfold figure, response. rewrite Hres. cbn.
  repeat split; try reflexivity; try assumption.
  unfold calculate_energy_balance. ring.
Qed.

(** C10. The figure ["excess_or_curtailed_energy_kWh"] of a 200 response is
    the total generated plus the grid energy minus the load, and a request
    that differs only in its battery inputs reports the same figure. *)
Theorem reported_balance_ignores_battery
    (data : dict) (calls : trace) (body : json) :
  nzeb_model fit_predict str_exn data = (calls, (body, 200%Z)) ->
  (exists (total grid load excess : Q) (grid_field load_field : json),
      figure body "energy_generation" "total_generated_kWh" = Some (num total)
      /\ figure body "energy_balance" "grid_energy_kWh" = Some grid_field
      /\ as_number grid_field = Ok grid
      /\ figure body "energy_balance" "load_demand_kWh" = Some load_field
      /\ as_number load_field = Ok load
      /\ figure body "energy_balance" "excess_or_curtailed_energy_kWh"
         = Some (num excess)
      /\ excess == total + grid - load)
  /\ (forall (data' : dict) (calls' : trace) (body' : json),
        nzeb_model fit_predict str_exn data' = (calls', (body', 200%Z)) ->
        (forall key : string,
            key <> "battery_inputs"%string ->
            dict_get key data' = dict_get key data) ->
        figure body' "energy_balance" "excess_or_curtailed_energy_kWh"
        = figure body "energy_balance" "excess_or_curtailed_energy_kWh").
Proof.
  intros H. destruct (nzeb_model_200 data calls body H) as (l & Hrun & ->).
  destruct (nzeb_locals_inv data [] calls l Hrun)
    as (b0 & load & grid & Hin & _ & Hld & Hload & Hge & Hgrid & Hex & _).
  split.
  - exists (total_energy_generated l), grid, load, (e_excess l),
      (grid_energy l), (load_demand l).
    unfold figure. cbn. repeat split; try reflexivity; try assumption.
    rewrite Hex. unfold calculate_energy_balance. reflexivity.
  - intros data' calls' body' H' Hframe.
    destruct (nzeb_model_200 data' calls' body' H') as (l' & Hrun' & ->).
    destruct (nzeb_locals_inv data' [] calls' l' Hrun')
      as (b0' & load' & grid' & Hin' & _ & Hld' & Hload' & Hge' & Hgrid'
          & Hex' & _).
    destruct (simulation_inputs_frame data data' b0 b0' _ _ _ _ Hframe Hin Hin')
      as (Etotal & ->).
    assert (Egrid : grid' = grid).
    { unfold getitem in Hge, Hge'. rewrite Hframe in Hge' by discriminate.
      rewrite Hge in Hge'. injection Hge' as Hge'. rewrite <- Hge' in Hgrid'.
      rewrite Hgrid in Hgrid'. now injection Hgrid'. }
    unfold figure. cbn. rewrite Hex, Hex', Etotal, Egrid. reflexivity.
Qed.

End HandlerFacts.


(** C8, as the claim states it, fails: the request [sample_request] without
    a scenario tag gets a 200 response that has the section
    ["scenario_modeling_results"]. *)
Lemma scenario_section_present_without_tag :
  ~ (forall (fit : list Q -> list Q -> list Q) (str : exn -> string)
            (data : dict) (calls : trace) (body : json),
        nzeb_model fit str data = (calls, (body, 200%Z)) ->
        dict_get "scenario" data = None ->
        has_section body "scenario_modeling_results" = false).
Proof.
  intros H.
  pose (data := sample_request 1 (sample_battery_inputs 10) []).
  pose (out := nzeb_model sample_fit_predict sample_str_exn data).
  specialize (H sample_fit_predict sample_str_exn data
                (fst out) (fst (snd out))).
  assert (Hsec : has_section (fst (snd out)) "scenario_modeling_results"
                 = true) by (vm_compute; reflexivity).
  rewrite H in Hsec; [discriminate | vm_compute; reflexivity | reflexivity].
Qed.

Lemma scenario_section_filled_only_on_request_witness :
  exists (calls : trace) (body : json),
    nzeb_model sample_fit_predict sample_str_exn
      (sample_request 1 (sample_battery_inputs 10) [])
    = (calls, (body, 200%Z))
    /\ has_section body "scenario_modeling_results" = true
    /\ getitem body "scenario_modeling_results" = Ok (JObj []).
Proof.
  eexists _, _. split; [vm_compute; reflexivity |].
  edestruct (scenario_section_filled_only_on_request
               sample_fit_predict sample_str_exn
               (sample_request 1 (sample_battery_inputs 10) []))
    as (Hsec & Hempty & _); [vm_compute; reflexivity |].
  split; [exact Hsec | apply Hempty; reflexivity].
Defined.

Lemma grid_outage_scenario_report_witness :
  exists (calls : trace) (body entry : json) (excess uptime : Q),
    nzeb_model sample_fit_predict sample_str_exn
      (sample_request 2 (sample_battery_inputs 10)
         [("scenario"%string, JStr "grid_outage")])
    = (calls, (body, 200%Z))
    /\ figure body "scenario_modeling_results" "grid_outage" = Some entry
    /\ getitem entry "excess_energy_during_outage_kWh" = Ok (num excess)
    /\ excess == (16 # 10) - 2
    /\ getitem entry "system_uptime_percentage" = Ok (num uptime)
    /\ uptime == 80.
Proof.
  edestruct (grid_outage_scenario_report sample_fit_predict sample_str_exn
               (sample_request 2 (sample_battery_inputs 10)
                  [("scenario"%string, JStr "grid_outage")]))
    as (total & load & excess & uptime & load_field & entry & Htotal & Hfield
        & Hload & Hentry & Hexcess & _ & Hval & Huptime & Hpos & _);
    [vm_compute; reflexivity | reflexivity |].
  vm_compute in Htotal. injection Htotal as Htotal.
  vm_compute in Hfield. injection Hfield as Hfield.
  rewrite <- Hfield in Hload. vm_compute in Hload. injection Hload as Hload.
  eexists _, _, entry, excess, uptime.
  split; [reflexivity |]. split; [exact Hentry |]. split; [exact Hexcess |].
  split; [rewrite Hval, <- Htotal, <- Hload; vm_compute; reflexivity |].
  split; [exact Huptime |].
  rewrite Hpos by (rewrite <- Hload; vm_compute; reflexivity).
  rewrite <- Htotal, <- Hload. vm_compute. reflexivity.
Defined.

Lemma reported_balance_ignores_battery_witness :
  exists (calls calls' : trace) (body body' : json) (excess : Q),
    nzeb_model sample_fit_predict sample_str_exn
      (sample_request 1 (sample_battery_inputs 10) [])
    = (calls, (body, 200%Z))
    /\ nzeb_model sample_fit_predict sample_str_exn
         (sample_request 1 (sample_battery_inputs 20) [])
       = (calls', (body', 200%Z))
    /\ figure body "battery_status" "state_of_charge_percent"
       <> figure body' "battery_status" "state_of_charge_percent"
    /\ figure body "energy_balance" "excess_or_curtailed_energy_kWh"
       = Some (num excess)
    /\ figure body' "energy_balance" "excess_or_curtailed_energy_kWh"
       = Some (num excess)
    /\ excess == (16 # 10) + 1 - 1.
Proof.
  edestruct (reported_balance_ignores_battery sample_fit_predict sample_str_exn
               (sample_request 1 (sample_battery_inputs 10) []))
    as ((total & grid & load & excess & grid_field & load_field & Htotal
         & Hgf & Hgrid & Hlf & Hload & Hexcess & Hval) & Hframe);
    [vm_compute; reflexivity |].
  vm_compute in Htotal. injection Htotal as Htotal.
  vm_compute in Hgf. injection Hgf as Hgf.
  rewrite <- Hgf in Hgrid. vm_compute in Hgrid. injection Hgrid as Hgrid.
  vm_compute in Hlf. injection Hlf as Hlf.
  rewrite <- Hlf in Hload. vm_compute in Hload. injection Hload as Hload.
  eexists _, _, _, _, excess.
  split; [reflexivity |].
  split; [vm_compute; reflexivity |].
  split; [vm_compute; discriminate |].
  split; [exact Hexcess |].
  split.
  - rewrite <- Hexcess.
    eapply (Hframe (sample_request 1 (sample_battery_inputs 20) []));
      [vm_compute; reflexivity |].
    intros key Hkey. unfold sample_request. cbn [app dict_get].
    destruct (String.eqb_spec key "battery_inputs") as [E | _];
      [contradiction |].
    reflexivity.
  - rewrite Hval, <- Htotal, <- Hgrid, <- Hload. vm_compute. reflexivity.
Defined.

(* ===================================================================== *)
(** * Further properties                                                  *)
(* ===================================================================== *)

(** ** Further properties of the battery *)

Lemma py_min_le_r (a b : Q) : py_min a b <= b.
Proof.
  destruct (py_min_cases a b) as [[H ->] | [_ ->]]; lra.
Qed.

Lemma py_min_glb (a b c : Q) : c <= a -> c <= b -> c <= py_min a b.
Proof.
  intros Ha Hb. destruct (py_min_cases a b) as [[_ ->] | [_ ->]]; assumption.
Qed.

(** X2. On a battery with capacity > 0, discharge efficiency > 0 and [soc]
    in [0,1], [discharge(e)] with [e >= 0] delivers between 0 and [e], never
    raises [soc], and the delivered energy is the energy taken from the
    store, [(soc - soc') * capacity], times [eta_d]. *)
Theorem discharge_delivers_at_most_the_request (b : Battery) (e : Q) :
  0 < capacity b -> 0 < eta_d b -> 0 <= soc b <= 1 -> 0 <= e ->
  exists (b' : Battery) (delivered : Q),
    discharge e b = (b', Ok delivered)
    /\ 0 <= delivered <= e
    /\ soc b' <= soc b
    /\ (soc b - soc b') * capacity b * eta_d b == delivered.
Proof.
  intros Hcap Hd Hs He.
  rewrite (discharge_run b Hcap e Hd). cbn zeta.
  set (delivered := py_min _ _).
  assert (H0 : 0 <= delivered).
  { apply py_min_glb; [| assumption].
    repeat apply Qmult_le_0_compat; lra. }
  assert (H1 : delivered <= e) by apply py_min_le_r.
  eexists _, _. split; [reflexivity |]. cbn.
  split; [split; assumption |]. split.
  - assert (0 <= delivered / eta_d b / capacity b).
    { apply Qle_shift_div_l; [lra |]. rewrite Qmult_0_l.
      apply Qle_shift_div_l; lra. }
    lra.
  - field. split; lra.
Qed.

(** X3. A full battery ([soc = 1]) consumes nothing on [charge] and an empty
    one ([soc = 0]) delivers nothing on [discharge]; neither call raises and
    [soc] keeps its value. *)
Theorem full_battery_takes_nothing_empty_gives_nothing (b : Battery) (e : Q) :
  0 < capacity b -> 0 < eta_c b -> 0 < eta_d b -> 0 <= e ->
  (soc b == 1 ->
   exists (b' : Battery) (consumed : Q),
     charge e b = (b', Ok consumed) /\ consumed == 0 /\ soc b' == soc b)
  /\ (soc b == 0 ->
      exists (b' : Battery) (delivered : Q),
        discharge e b = (b', Ok delivered)
        /\ delivered == 0 /\ soc b' == soc b).
Proof.
  intros Hcap Hc Hd He. split; intros Hs.
  - rewrite (charge_run b Hcap e Hc). cbn zeta.
    eexists _, _. split; [reflexivity |]. cbn.
    rewrite py_min_l.
    + rewrite Hs. split; field; lra.
    + rewrite Hs. assert (0 <= e * eta_c b) by (apply Qmult_le_0_compat; lra).
      lra.
  - rewrite (discharge_run b Hcap e Hd). cbn zeta.
    eexists _, _. split; [reflexivity |]. cbn.
    rewrite py_min_l.
    + rewrite Hs. split; [ring | field; split; lra].
    + rewrite Hs. lra.
Qed.

(** X4. [charge] raises [ZeroDivisionError] exactly when the capacity or the
    charge efficiency is 0, and [discharge] exactly when the capacity or the
    discharge efficiency is 0.  The battery is left untouched, except that
    [charge] with a nonzero capacity and a zero efficiency raises after it
    has updated [soc]. *)
Theorem battery_methods_raise_exactly_on_zero_divisors (b : Battery) (e : Q) :
  (capacity b == 0 -> charge e b = (b, Raise ZeroDivisionError))
  /\ (~ capacity b == 0 -> eta_c b == 0 ->
      exists b' : Battery, charge e b = (b', Raise ZeroDivisionError))
  /\ (~ capacity b == 0 -> ~ eta_c b == 0 ->
      exists (b' : Battery) (consumed : Q), charge e b = (b', Ok consumed))
  /\ (capacity b == 0 \/ eta_d b == 0 ->
      discharge e b = (b, Raise ZeroDivisionError))
  /\ (~ capacity b == 0 -> ~ eta_d b == 0 ->
      exists (b' : Battery) (delivered : Q),
        discharge e b = (b', Ok delivered)).
Proof.
  split; [| split; [| split; [| split]]].
  - intros H. unfold charge, bindM, self_, lift. cbn.
    now rewrite py_div_zero.
  - intros Hcap Hc. unfold charge, bindM, self_, lift, set_soc. cbn.
    rewrite py_div_ok by assumption. cbn.
    rewrite py_div_zero by assumption. eexists. reflexivity.
  - intros Hcap Hc. unfold charge, bindM, self_, lift, set_soc. cbn.
    rewrite py_div_ok by assumption. cbn.
    rewrite py_div_ok by assumption. eexists _, _. reflexivity.
  - intros H. unfold discharge, bindM, self_, lift. cbn.
    destruct (Qeq_dec (eta_d b) 0) as [Hd | Hd].
    + now rewrite py_div_zero.
    + rewrite py_div_ok by assumption. cbn.
      destruct H as [H | H]; [| contradiction].
      now rewrite py_div_zero.
  - intros Hcap Hd. unfold discharge, bindM, self_, lift, set_soc, ret. cbn.
    rewrite py_div_ok by assumption. cbn.
    rewrite py_div_ok by assumption. cbn. eexists _, _. reflexivity.
Qed.

(** ** Further properties of the wind model *)

Lemma cube_expand (v : Q) : v ^ 3 == v * v * v.
Proof. cbn. ring. Qed.

Lemma cube_monotone (v1 v2 : Q) : 0 <= v1 -> v1 <= v2 -> v1 ^ 3 <= v2 ^ 3.
Proof.
  intros H0 H. rewrite !cube_expand.
  assert (H1 : v1 * v1 <= v2 * v2) by nra.
  assert (H2 : 0 <= v1 * v1) by nra.
  nra.
Qed.

Lemma cubic_law_nonneg (rho area cp v : Q) :
  0 <= rho -> 0 <= area -> 0 <= cp -> 0 <= v ->
  0 <= ((5 # 10) * rho * area * (v ^ 3) * cp) / 1000.
Proof.
  intros Hr Ha Hc Hv.
  apply Qle_shift_div_l; [reflexivity |]. rewrite Qmult_0_l.
  repeat apply Qmult_le_0_compat; try assumption; vm_compute; discriminate.
Qed.

(** X6. With non-negative air density, swept area, power coefficient, rated
    power, cut-in speed and interval length, wind power and wind energy are
    non-negative at every wind speed, and the energy is 0 below cut-in and
    above cut-out. *)
Theorem wind_energy_nonnegative
    (rho area cp v v_cut_in v_rated v_cut_out p_rated delta_t : Q) :
  0 <= rho -> 0 <= area -> 0 <= cp -> 0 <= p_rated -> 0 <= v_cut_in ->
  0 <= delta_t ->
  0 <= calculate_wind_power rho area cp v v_cut_in v_rated v_cut_out p_rated
  /\ 0 <= calculate_wind_energy rho area cp v v_cut_in v_rated v_cut_out
            p_rated delta_t
  /\ (v < v_cut_in \/ v_cut_out < v ->
      calculate_wind_energy rho area cp v v_cut_in v_rated v_cut_out
        p_rated delta_t == 0).
Proof.
  intros Hr Ha Hc Hp Hin Hdt.
  assert (Hpow : 0 <= calculate_wind_power rho area cp v v_cut_in v_rated
                        v_cut_out p_rated).
  { unfold calculate_wind_power.
    destruct (Qltb v v_cut_in || Qltb v_cut_out v); [lra |].
    destruct (Qleb_spec v_cut_in v) as [H1 | H1]; cbn [andb].
    - destruct (Qleb v v_rated).
      + apply cubic_law_nonneg; try assumption. lra.
      + destruct (Qltb v_rated v && Qleb v v_cut_out); lra.
    - destruct (Qltb v_rated v && Qleb v v_cut_out); lra. }
  split; [exact Hpow |]. split.
  - unfold calculate_wind_energy. apply Qmult_le_0_compat; assumption.
  - intros Hout. unfold calculate_wind_energy, calculate_wind_power.
    destruct (Qltb_spec v v_cut_in) as [H1 | H1]; [cbn; ring |].
    destruct (Qltb_spec v_cut_out v) as [H2 | H2]; [cbn; ring |].
    destruct Hout; lra.
Qed.

(** X7. With non-negative air density, swept area, power coefficient and
    cut-in speed, and [v_rated <= v_cut_out], the wind power does not
    decrease with the wind speed up to the rated speed. *)
Theorem wind_power_nondecreasing_up_to_rated
    (rho area cp v1 v2 v_cut_in v_rated v_cut_out p_rated : Q) :
  0 <= rho -> 0 <= area -> 0 <= cp -> 0 <= v_cut_in ->
  v_rated <= v_cut_out ->
  v1 <= v2 -> v2 <= v_rated ->
  calculate_wind_power rho area cp v1 v_cut_in v_rated v_cut_out p_rated
  <= calculate_wind_power rho area cp v2 v_cut_in v_rated v_cut_out p_rated.
Proof.
  intros Hr Ha Hc Hin Hout H12 H2.
  unfold calculate_wind_power.
  destruct (Qltb_spec v2 v_cut_in) as [A2 | A2].
  - destruct (Qltb_spec v1 v_cut_in) as [A1 | A1]; [cbn; lra | lra].
  - destruct (Qltb_spec v_cut_out v2) as [B2 | B2]; [lra |].
    destruct (Qleb_spec v_cut_in v2) as [C2 | C2]; [| lra].
    destruct (Qleb_spec v2 v_rated) as [D2 | D2]; [| lra].
    cbn [orb andb].
    destruct (Qltb_spec v1 v_cut_in) as [A1 | A1].
    + cbn [orb]. apply cubic_law_nonneg; try assumption. lra.
    + destruct (Qltb_spec v_cut_out v1) as [B1 | B1]; [lra |].
      destruct (Qleb_spec v_cut_in v1) as [C1 | C1]; [| lra].
      destruct (Qleb_spec v1 v_rated) as [D1 | D1]; [| lra].
      cbn [orb andb].
      apply Qmult_le_compat_r; [| vm_compute; discriminate].
      apply Qmult_le_compat_r; [| assumption].
      assert (Hk : 0 <= (5 # 10) * rho * area).
      { repeat apply Qmult_le_0_compat; try assumption.
        vm_compute; discriminate. }
      assert (Hcube : v1 ^ 3 <= v2 ^ 3) by (apply cube_monotone; lra).
      nra.
Qed.

(** ** Further properties of the financial model *)

Lemma py_range_empty (n : Z) : (n <= 0)%Z -> py_range 1 (n + 1) = [].
Proof.
  intros H. rewrite py_range_from_1.
  replace (Z.to_nat n) with O by lia. reflexivity.
Qed.

Lemma py_range_first (n : Z) :
  (1 <= n)%Z -> exists rest, py_range 1 (n + 1) = 1%Z :: rest.
Proof.
  intros H. rewrite py_range_from_1.
  destruct (Z.to_nat n) as [| k] eqn:E; [lia |].
  cbn [seq map]. eexists. reflexivity.
Qed.

(** X8. With a horizon [n <= 0] the loops do not run: [calculate_lcc] returns
    the initial cost and [calculate_lcoe] returns positive infinity,
    whatever the discount rate. *)
Theorem no_years_no_discounting (c_init c_om c_rep s lcc e r : Q) (n : Z) :
  (n <= 0)%Z ->
  calculate_lcc c_init c_om c_rep s r n = Ok c_init
  /\ calculate_lcoe lcc e r n = Ok Inf.
Proof.
  intros H. unfold calculate_lcc, calculate_lcoe.
  rewrite py_range_empty by assumption. split; reflexivity.
Qed.

(** X9. With the discount rate -1 and a horizon [n >= 1], [calculate_lcc] and
    [calculate_lcoe] both raise [ZeroDivisionError]; [calculate_lcoe] does so
    even for a zero annual energy. *)
Theorem discount_rate_minus_one_raises (c_init c_om c_rep s lcc e r : Q) (n : Z) :
  r == -1 -> (1 <= n)%Z ->
  calculate_lcc c_init c_om c_rep s r n = Raise ZeroDivisionError
  /\ calculate_lcoe lcc e r n = Raise ZeroDivisionError.
Proof.
  intros Hr Hn. unfold calculate_lcc, calculate_lcoe.
  destruct (py_range_first n Hn) as (rest & ->).
  assert (Hz : (1 + r) ^ 1 == 0) by (cbn; lra).
  cbn [for_each]. rewrite (py_pow_zero (1 + r) 1 ltac:(lia) Hz). cbn [bind].
  rewrite !py_div_zero by reflexivity. split; reflexivity.
Qed.

Lemma lcc_sum_split (c_om x r : Q) (k : nat) :
  discounted_sum
    (fun y => if (y =? Z.of_nat (S k))%Z then c_om + x else c_om) r (S k)
  == discounted_sum (fun _ => c_om) r k
     + (c_om + x) / (1 + r) ^ Z.of_nat (S k).
Proof.
  cbn [discounted_sum]. rewrite Z.eqb_refl.
  apply Qplus_inj_r. apply discounted_sum_ext. intros y Hy.
  destruct (Z.eqb_spec y (Z.of_nat (S k))); [lia | reflexivity].
Qed.

(** X10. For [n >= 1] and discount factors [(1+r)^y], [y = 1..n], in the
    range of doubles, the replacement cost and the salvage value enter the
    life cycle cost through their difference, discounted over the whole
    horizon: changing them moves the cost by
    [((c_rep' - s') - (c_rep - s)) / (1+r)^n]. *)
Theorem final_year_carries_replacement_and_salvage
    (c_init c_om c_rep s c_rep' s' r : Q) (n : Z) :
  (1 <= n)%Z ->
  (forall y : Z, (1 <= y <= n)%Z -> in_double_range ((1 + r) ^ y) = true) ->
  exists v v' : Q,
    calculate_lcc c_init c_om c_rep s r n = Ok v
    /\ calculate_lcc c_init c_om c_rep' s' r n = Ok v'
    /\ v' - v == ((c_rep' - s') - (c_rep - s)) / (1 + r) ^ n.
Proof.
  intros Hn Hrange.
  destruct (calculate_lcc_sum c_init c_om c_rep s r n Hrange)
    as (v & Hrun & Hv).
  destruct (calculate_lcc_sum c_init c_om c_rep' s' r n Hrange)
    as (v' & Hrun' & Hv').
  exists v, v'. split; [exact Hrun |]. split; [exact Hrun' |].
  rewrite Hv, Hv'.
  assert (Hnz : ~ (1 + r) ^ n == 0)
    by (apply in_double_range_nonzero, Hrange; lia).
  destruct (Z.to_nat n) as [| k] eqn:E; [lia |].
  replace n with (Z.of_nat (S k)) in * by lia.
  rewrite !lcc_sum_split. field. exact Hnz.
Qed.

Lemma unit_factors_in_range (r : Q) (y : Z) :
  r == 0 -> (1 + r) ^ y == 1 /\ in_double_range ((1 + r) ^ y) = true.
Proof.
  intros Hr.
  assert (H1 : (1 + r) ^ y == 1).
  { assert (E : 1 + r == 1) by lra. rewrite E. apply Qpower_1. }
  split; [exact H1 |]. now rewrite (in_double_range_wd _ 1 H1).
Qed.

Lemma discounted_sum_rate_zero (c r : Q) (k : nat) :
  r == 0 -> discounted_sum (fun _ => c) r k == inject_Z (Z.of_nat k) * c.
Proof.
  intros Hr. induction k as [| k IH].
  - cbn. ring.
  - cbn [discounted_sum]. rewrite IH.
    destruct (unit_factors_in_range r (Z.of_nat (S k)) Hr) as (H1 & _).
    rewrite H1. rewrite Nat2Z.inj_succ. unfold Z.succ.
    rewrite inject_Z_plus. field.
Qed.

(** X11. At the discount rate 0 and for [n >= 1], the life cycle cost is the
    plain sum [c_init + n * c_om + c_rep - s]. *)
Theorem lcc_at_zero_discount_rate (c_init c_om c_rep s r : Q) (n : Z) :
  r == 0 -> (1 <= n)%Z ->
  exists v : Q,
    calculate_lcc c_init c_om c_rep s r n = Ok v
    /\ v == c_init + inject_Z n * c_om + c_rep - s.
Proof.
  intros Hr Hn.
  destruct (calculate_lcc_sum c_init c_om c_rep s r n) as (v & Hrun & Hv);
    [intros y _; apply (unit_factors_in_range r y Hr) |].
  exists v. split; [exact Hrun |]. rewrite Hv.
  destruct (Z.to_nat n) as [| k] eqn:E; [lia |].
  replace n with (Z.of_nat (S k)) by lia.
  rewrite lcc_sum_split, (discounted_sum_rate_zero c_om r k Hr).
  destruct (unit_factors_in_range r (Z.of_nat (S k)) Hr) as (H1 & _).
  rewrite H1. rewrite Nat2Z.inj_succ. unfold Z.succ.
  rewrite inject_Z_plus. field.
Qed.

(** X12. At the discount rate 0, for [n >= 1] and a nonzero annual energy,
    the levelized cost is [lcc / (n * e_total_per_year)]. *)
Theorem lcoe_at_zero_discount_rate (lcc e r : Q) (n : Z) :
  r == 0 -> (1 <= n)%Z -> ~ e == 0 ->
  exists v : Q,
    calculate_lcoe lcc e r n = Ok (Finite v)
    /\ v == lcc / (inject_Z n * e).
Proof.
  intros Hr Hn He.
  destruct (discount_loop r (fun _ => e) (Z.to_nat n) 0)
    as (v & Hrun & Hv);
    [intros y _; apply (unit_factors_in_range r y Hr) |].
  assert (Hsum : v == inject_Z n * e).
  { rewrite Hv, (discounted_sum_rate_zero e r _ Hr).
    rewrite Z2Nat.id by lia. ring. }
  assert (Hn0 : ~ inject_Z n == 0).
  { intros H. assert (0 < inject_Z n); [| lra].
    change (inject_Z 0 < inject_Z n). rewrite <- Zlt_Qlt. lia. }
  assert (Hne : ~ v == 0).
  { rewrite Hsum. intros H. apply Qmult_integral in H. tauto. }
  unfold calculate_lcoe. rewrite py_range_from_1, Hrun. cbn [bind].
  destruct (Qeq_bool v 0) eqn:Eb.
  - apply Qeq_bool_iff in Eb. contradiction.
  - rewrite py_div_ok by exact Hne. cbn [bind].
    eexists. split; [reflexivity |]. now rewrite Hsum.
Qed.

(** A run of the energy loop that returns has added nothing when the annual
    energy is 0. *)
Lemma energy_loop_without_energy (e r : Q) (ys : list Z) (acc v : Q) :
  e == 0 ->
  for_each ys
    (fun acc y =>
       d <- py_pow (1 + r) y ;;
       t <- py_div e d ;;
       Ok (acc + t))
    acc
  = Ok v ->
  v == acc.
Proof.
  intros He. revert acc. induction ys as [| y ys IH]; intros acc H.
  - cbn in H. injection H as <-. reflexivity.
  - cbn [for_each] in H.
    destruct (py_pow (1 + r) y) as [d | x]; [| discriminate H].
    cbn [bind] in H. unfold py_div in H.
    destruct (Qeq_bool d 0); [discriminate H |]. cbn [bind] in H.
    rewrite (IH _ H), He. unfold Qdiv. ring.
Qed.

Lemma lcoe_without_energy_is_infinite (lcc e r : Q) (n : Z) (x : pyfloat) :
  e == 0 -> calculate_lcoe lcc e r n = Ok x -> x = Inf.
Proof.
  intros He Hrun. unfold calculate_lcoe in Hrun.
  destruct (for_each _ _ 0) as [v | err] eqn:Hloop; [| discriminate Hrun].
  cbn [bind] in Hrun.
  rewrite (Qeq_eq_bool v 0) in Hrun
    by (apply (energy_loop_without_energy e r _ 0 v He Hloop)).
  congruence.
Qed.

(** ** Further properties of the request handler *)

Lemma has_required_keys_false (data : dict) (key : string) :
  In key required_keys -> dict_get key data = None ->
  has_required_keys data = false.
Proof.
  intros Hin Hnone. destruct (has_required_keys data) eqn:E; [| reflexivity].
  destruct (has_required_keys_inv data E key Hin) as (v & Hv).
  cbn in Hv. rewrite Hnone in Hv. discriminate.
Qed.

Lemma battery_simulation_zero_capacity (b : Battery) (g l : Q) (log : trace) :
  capacity b == 0 -> ~ g == l ->
  exists c : battery_call,
    battery_simulation b g l log = (log ++ [c], Raise ZeroDivisionError).
Proof.
  intros Hcap Hne. unfold battery_simulation, bindM, invoke, ret.
  destruct (Qltb_spec l g) as [H1 | H1];
    [| destruct (Qltb_spec g l) as [H2 | H2]].
  - assert (E : charge (g - l) b = (b, Raise ZeroDivisionError)).
    { unfold charge, bindM, self_, lift. cbn. now rewrite py_div_zero. }
    rewrite E. eexists. reflexivity.
  - assert (E : discharge (l - g) b = (b, Raise ZeroDivisionError)).
    { unfold discharge, bindM, self_, lift. cbn.
      destruct (Qeq_dec (eta_d b) 0) as [Hd | Hd].
      - now rewrite py_div_zero.
      - rewrite py_div_ok by assumption. cbn. now rewrite py_div_zero. }
    rewrite E. eexists. reflexivity.
  - exfalso. apply Hne. lra.
Qed.

Section MoreHandlerFacts.

Variable fit_predict : list Q -> list Q -> list Q.
Variable str_exn : exn -> string.

Lemma nzeb_locals_prefix_raises (data : dict) (log : trace) (e : exn) :
  has_required_keys data = true ->
  simulation_inputs data = Raise e ->
  nzeb_locals fit_predict data log = (log, Raise e).
Proof.
  intros Hkeys Hin.
  destruct (has_required_keys_inv data Hkeys "grid_energy") as (ge & Hge);
    [cbn; tauto |].
  destruct (has_required_keys_inv data Hkeys "lcca_inputs") as (li & Hli);
    [cbn; tauto |].
  destruct (has_required_keys_inv data Hkeys "co2_inputs") as (ci & Hci);
    [cbn; tauto |].
  unfold simulation_inputs, bind in Hin.
  unfold nzeb_locals, bindM, lift.
  repeat (invert_result Hin;
          repeat match goal with
                 | E : ?c = _ |- context [?c] => rewrite E
                 end);
    try (injection Hin as <-; reflexivity).
Qed.

Lemma nzeb_locals_simulation_raises (data : dict) (log log' : trace)
    (b0 : Battery) (total load : Q) (e : exn) :
  has_required_keys data = true ->
  simulation_inputs data = Ok (b0, total, load) ->
  battery_simulation b0 total load log = (log', Raise e) ->
  nzeb_locals fit_predict data log = (log', Raise e).
Proof.
  intros Hkeys Hin Hsim.
  destruct (has_required_keys_inv data Hkeys "grid_energy") as (ge & Hge);
    [cbn; tauto |].
  destruct (has_required_keys_inv data Hkeys "lcca_inputs") as (li & Hli);
    [cbn; tauto |].
  destruct (has_required_keys_inv data Hkeys "co2_inputs") as (ci & Hci);
    [cbn; tauto |].
  unfold simulation_inputs, bind in Hin.
  repeat invert_result Hin. injection Hin as <- <- <-.
  unfold nzeb_locals, bindM, lift.
  repeat match goal with
         | E : ?c = _ |- context [?c] => rewrite E
         end.
  reflexivity.
Qed.

(** X13. A request that lacks one of the eight required keys is answered
    with status 400 and the error ["Missing required input data"], and no
    battery method is called. *)
Theorem request_without_required_section_is_rejected
    (data : dict) (key : string) :
  In key required_keys -> dict_get key data = None ->
  nzeb_model fit_predict str_exn data
  = ([], (JObj [ ("error"%string, JStr "Missing required input data") ],
          400%Z)).
Proof.
  intros Hin Hnone. unfold nzeb_model, nzeb_try.
  now rewrite (has_required_keys_false data key Hin Hnone).
Qed.

(** X14. When a request passes validation but a key is missing in one of the
    input groups read before the battery simulation, the answer is status
    400 with an error naming that key, and no battery method is called. *)
Theorem missing_key_before_simulation_is_a_client_error
    (data : dict) (key : string) :
  has_required_keys data = true ->
  simulation_inputs data = Raise (KeyError key) ->
  nzeb_model fit_predict str_exn data
  = ([],
     (JObj [ ("error"%string,
              JStr ("Missing key in input data: '" ++ key ++ "'")) ],
      400%Z)).
Proof.
  intros Hkeys Hin. unfold nzeb_model, nzeb_try, bindM. rewrite Hkeys.
  cbn [negb].
  now rewrite (nzeb_locals_prefix_raises data [] _ Hkeys Hin).
Qed.

(** X15. When the battery has capacity 0 and the generation differs from
    the load, the one battery call is made, raises, and the request is
    answered with status 500. *)
Theorem zero_capacity_battery_fails_the_request
    (data : dict) (b0 : Battery) (total load : Q) :
  has_required_keys data = true ->
  simulation_inputs data = Ok (b0, total, load) ->
  capacity b0 == 0 -> ~ total == load ->
  exists c : battery_call,
    nzeb_model fit_predict str_exn data
    = ([c],
       (JObj [ ("error"%string,
                JStr ("An unexpected error occurred: "
                      ++ str_exn ZeroDivisionError)) ],
        500%Z)).
Proof.
  intros Hkeys Hin Hcap Hne.
  destruct (battery_simulation_zero_capacity b0 total load [] Hcap Hne)
    as (c & Hsim).
  exists c. unfold nzeb_model, nzeb_try, bindM. rewrite Hkeys. cbn [negb].
  rewrite (nzeb_locals_simulation_raises data [] _ b0 total load _
             Hkeys Hin Hsim).
  reflexivity.
Qed.

(** The generation and financial figures of a run that returned. *)
Lemma nzeb_locals_figures (data : dict) (log calls : trace) (l : locals) :
  nzeb_locals fit_predict data log = (calls, Ok l) ->
  exists (solar wind biogas lcca co2 ef_field : json) (ef : Q),
    getitem (JObj data) "solar_inputs" = Ok solar
    /\ getitem (JObj data) "wind_inputs" = Ok wind
    /\ getitem (JObj data) "biogas_inputs" = Ok biogas
    /\ getitem (JObj data) "lcca_inputs" = Ok lcca
    /\ getitem (JObj data) "co2_inputs" = Ok co2
    /\ request_e_pv solar = Ok (e_pv l)
    /\ request_e_wt wind = Ok (e_wt l)
    /\ request_e_bg biogas = Ok (e_bg l)
    /\ total_energy_generated l
       = calculate_total_energy_generated (e_pv l) (e_wt l) (e_bg l)
    /\ request_lcc lcca = Ok (lcc l)
    /\ request_lcoe lcca (lcc l) (total_energy_generated l * 24 * 365)
       = Ok (lcoe l)
    /\ getitem co2 "emission_factor" = Ok ef_field
    /\ as_number ef_field = Ok ef
    /\ delta_co2 l = calculate_co2_reduction (total_energy_generated l) ef
    /\ regression_analysis fit_predict solar = Ok (regression_results l).
Proof.
  intros H. unfold nzeb_locals, bindM, lift in H.
  repeat invert_result H.
  all: destruct (battery_simulation _ _ _ log) as [log' [[b1 efg] | e']]
         eqn:Hsim;
    cbv beta iota in H; try discriminate H.
  unfold ret in H. injection H as <- <-. cbn.
  eexists _, _, _, _, _, _, _. repeat split; eassumption.
Qed.

(** X17. A 200 response that reports a total generation of 0 reports an
    infinite levelized cost of energy. *)
Theorem no_generation_gives_infinite_lcoe
    (data : dict) (calls : trace) (body : json) (total : Q) :
  nzeb_model fit_predict str_exn data = (calls, (body, 200%Z)) ->
  figure body "energy_generation" "total_generated_kWh" = Some (num total) ->
  total == 0 ->
  figure body "financial_analysis" "levelized_cost_of_energy_LCOE"
  = Some (JFloat Inf).
Proof.
  intros H Htotal Hzero.
  destruct (nzeb_model_200 fit_predict str_exn data calls body H)
    as (l & Hrun & ->).
  destruct (nzeb_locals_figures data [] calls l Hrun)
    as (solar & wind & biogas & lcca & co2 & ef_field & ef & _ & _ & _ & _
        & _ & _ & _ & _ & _ & _ & Hlcoe & _).
  cbn in Htotal. injection Htotal as Htotal.
  unfold request_lcoe, bind in Hlcoe. repeat invert_result Hlcoe.
  cbn. f_equal. f_equal.
  apply (lcoe_without_energy_is_infinite _ _ _ _ _) with (2 := Hlcoe).
  rewrite Htotal, Hzero. ring.
Qed.

(** X18. In a 200 response the total generation is the sum of the PV, wind
    and biogas figures, and the CO2 reduction is the total generation times
    the emission factor of the request. *)
Theorem response_figures_are_consistent
    (data : dict) (calls : trace) (body : json) :
  nzeb_model fit_predict str_exn data = (calls, (body, 200%Z)) ->
  exists (pv wind biogas total co2 ef : Q) (co2_inputs ef_field : json),
    figure body "energy_generation" "solar_pv_kWh" = Some (num pv)
    /\ figure body "energy_generation" "wind_turbine_kWh" = Some (num wind)
    /\ figure body "energy_generation" "biogas_kWh" = Some (num biogas)
    /\ figure body "energy_generation" "total_generated_kWh"
       = Some (num total)
    /\ total == pv + wind + biogas
    /\ dict_get "co2_inputs" data = Some co2_inputs
    /\ getitem co2_inputs "emission_factor" = Ok ef_field
    /\ as_number ef_field = Ok ef
    /\ figure body "environmental_impact" "co2_emission_reduction_kg"
       = Some (num co2)
    /\ co2 == total * ef.
Proof.
  intros H.
  destruct (nzeb_model_200 fit_predict str_exn data calls body H)
    as (l & Hrun & ->).
  destruct (nzeb_locals_figures data [] calls l Hrun)
    as (solar & wind & biogas & lcca & co2 & ef_field & ef & _ & _ & _ & _
        & Hco2 & _ & _ & _ & Htotal & _ & _ & Hef & Hnum & Hdelta & _).
  exists (e_pv l), (e_wt l), (e_bg l), (total_energy_generated l),
    (delta_co2 l), ef, co2, ef_field.
  cbn in Hco2. destruct (dict_get "co2_inputs" data) as [v |] eqn:E;
    [| discriminate].
  injection Hco2 as ->.
  repeat split; try reflexivity; try assumption.
  - rewrite Htotal. reflexivity.
  - rewrite Hdelta. reflexivity.
Qed.

(** X19. Two requests that differ only in their battery inputs and are both
    answered with 200 get the same response outside the section
    ["battery_status"]. *)
Theorem battery_inputs_reach_only_the_battery_status
    (data data' : dict) (calls calls' : trace) (body body' : json) :
  nzeb_model fit_predict str_exn data = (calls, (body, 200%Z)) ->
  nzeb_model fit_predict str_exn data' = (calls', (body', 200%Z)) ->
  (forall key : string,
      key <> "battery_inputs"%string ->
      dict_get key data' = dict_get key data) ->
  forall section : string,
    section <> "battery_status"%string ->
    getitem body' section = getitem body section.
Proof.
  intros H H' Hframe section Hsection.
  destruct (nzeb_model_200 fit_predict str_exn data calls body H)
    as (l & Hrun & ->).
  destruct (nzeb_model_200 fit_predict str_exn data' calls' body' H')
    as (l' & Hrun' & ->).
  clear H H'.
  unfold nzeb_locals, bindM, lift, scenario_modeling in Hrun, Hrun'.
  unfold getitem at 1 2 3 4 5 6 7 8 in Hrun.
  unfold getitem at 1 2 3 4 5 6 7 8 in Hrun'.
  rewrite (Hframe "solar_inputs"%string), (Hframe "wind_inputs"%string),
    (Hframe "biogas_inputs"%string), (Hframe "load_demand"%string),
    (Hframe "grid_energy"%string), (Hframe "lcca_inputs"%string),
    (Hframe "co2_inputs"%string), (Hframe "scenario"%string)
    in Hrun' by discriminate.
  repeat invert_result Hrun.
  all: destruct (battery_simulation _ _ _ []) as [log1 [[b1 efg1] | e1]]
         in Hrun;
    cbv beta iota in Hrun; try discriminate Hrun.
  unfold ret in Hrun. injection Hrun as _ <-.
  repeat invert_result Hrun'.
  all: destruct (battery_simulation _ _ _ []) as [log2 [[b2 efg2] | e2]]
         in Hrun';
    cbv beta iota in Hrun'; try discriminate Hrun'.
  unfold ret in Hrun'. injection Hrun' as _ <-.
  unfold response, getitem. cbn [dict_get].
  repeat match goal with
         | |- context [String.eqb section ?k] =>
             destruct (String.eqb_spec section k)
         end;
    try reflexivity; contradiction.
Qed.

(** X20. The status of a response is 200, 400 or 500; the body has an
    ["error"] entry exactly when the status is not 200, and then it is the
    only entry. *)
Theorem status_and_error_entry (data : dict) :
  let '(_, (body, status)) := nzeb_model fit_predict str_exn data in
  (status = 200%Z \/ status = 400%Z \/ status = 500%Z)
  /\ (has_section body "error" = true <-> status <> 200%Z)
  /\ (status <> 200%Z -> exists msg : string,
        body = JObj [ ("error"%string, JStr msg) ]).
Proof.
  unfold nzeb_model, nzeb_try, bindM, ret.
  destruct (negb (has_required_keys data)).
  - cbn. split; [tauto |]. split; [split; [discriminate | reflexivity] |].
    intros _. eexists. reflexivity.
  - destruct (nzeb_locals fit_predict data []) as [log [l | e]].
    + cbn. split; [tauto |]. split; [split; [discriminate | tauto] | tauto].
    + destruct e; cbn; (split; [tauto |]);
        (split; [split; [discriminate | reflexivity] |]);
        intros _; eexists; reflexivity.
Qed.

(** X21. Two requests that differ only in their scenario tag and are both
    answered with 200 make the same battery calls and get the same response
    outside the section ["scenario_modeling_results"]. *)
Theorem scenario_tag_reaches_only_the_scenario_section
    (data data' : dict) (calls calls' : trace) (body body' : json) :
  nzeb_model fit_predict str_exn data = (calls, (body, 200%Z)) ->
  nzeb_model fit_predict str_exn data' = (calls', (body', 200%Z)) ->
  (forall key : string,
      key <> "scenario"%string -> dict_get key data' = dict_get key data) ->
  calls' = calls
  /\ forall section : string,
      section <> "scenario_modeling_results"%string ->
      getitem body' section = getitem body section.
Proof.
  intros H H' Hframe.
  destruct (nzeb_model_200 fit_predict str_exn data calls body H)
    as (l & Hrun & ->).
  destruct (nzeb_model_200 fit_predict str_exn data' calls' body' H')
    as (l' & Hrun' & ->).
  clear H H'.
  unfold nzeb_locals, bindM, lift in Hrun, Hrun'.
  unfold getitem at 1 2 3 4 5 6 7 8 in Hrun.
  unfold getitem at 1 2 3 4 5 6 7 8 in Hrun'.
  rewrite (Hframe "solar_inputs"%string), (Hframe "wind_inputs"%string),
    (Hframe "biogas_inputs"%string), (Hframe "load_demand"%string),
    (Hframe "grid_energy"%string), (Hframe "battery_inputs"%string),
    (Hframe "lcca_inputs"%string), (Hframe "co2_inputs"%string)
    in Hrun' by discriminate.
  repeat invert_result Hrun.
  all: destruct (battery_simulation _ _ _ []) as [log1 [[b1 efg1] | e1]];
    cbv beta iota in Hrun, Hrun'; try discriminate Hrun.
  unfold ret in Hrun. injection Hrun as <- <-.
  repeat invert_result Hrun'.
  unfold ret in Hrun'. injection Hrun' as <- <-.
  split; [reflexivity |].
  intros section Hsection.
  unfold response, getitem. cbn [dict_get].
  repeat match goal with
         | |- context [String.eqb section ?k] =>
             destruct (String.eqb_spec section k)
         end;
    try reflexivity; contradiction.
Qed.

(** X22. For a request that passes validation: when ["solar_inputs"] is an
    object that lacks one of its three keys, the answer is status 400 naming
    the first missing key in the order area, efficiency, irradiance,
    whatever the other fields hold; when ["solar_inputs"] is not an object,
    the answer is status 500.  No battery method is called in either case. *)
Theorem solar_inputs_errors (data : dict) :
  has_required_keys data = true ->
  (forall (d : dict) (key : string),
      dict_get "solar_inputs" data = Some (JObj d) ->
      find (fun k => negb (dict_in k d))
        [ "area_pv"; "efficiency_pv"; "irradiance" ]%string = Some key ->
      nzeb_model fit_predict str_exn data
      = ([],
         (JObj [ ("error"%string,
                  JStr ("Missing key in input data: '" ++ key ++ "'")) ],
          400%Z)))
  /\ (forall v : json,
        dict_get "solar_inputs" data = Some v ->
        (forall d : dict, v <> JObj d) ->
        nzeb_model fit_predict str_exn data
        = ([],
           (JObj [ ("error"%string,
                    JStr ("An unexpected error occurred: "
                          ++ str_exn TypeError)) ],
            500%Z))).
Proof.
  intros Hkeys.
  assert (Hfail : forall e : exn,
             simulation_inputs data = Raise e ->
             nzeb_model fit_predict str_exn data
             = ([],
                match e with
                | KeyError key =>
                    (JObj [ ("error"%string,
                             JStr ("Missing key in input data: '"
                                   ++ key ++ "'")) ],
                     400%Z)
                | _ =>
                    (JObj [ ("error"%string,
                             JStr ("An unexpected error occurred: "
                                   ++ str_exn e)) ],
                     500%Z)
                end)).
  { intros e Hin. unfold nzeb_model, nzeb_try, bindM. rewrite Hkeys.
    cbn [negb]. rewrite (nzeb_locals_prefix_raises data [] e Hkeys Hin).
    destruct e; reflexivity. }
  destruct (has_required_keys_inv data Hkeys "wind_inputs") as (w & Hw);
    [cbn; tauto |].
  destruct (has_required_keys_inv data Hkeys "biogas_inputs") as (bg & Hbg);
    [cbn; tauto |].
  destruct (has_required_keys_inv data Hkeys "load_demand") as (ld & Hld);
    [cbn; tauto |].
  destruct (has_required_keys_inv data Hkeys "battery_inputs") as (bi & Hbi);
    [cbn; tauto |].
  split.
  - intros d key Hsolar Hfind.
    apply (Hfail (KeyError key)).
    unfold simulation_inputs. unfold getitem at 1. rewrite Hsolar.
    rewrite Hw, Hbg, Hld, Hbi. cbn [bind].
    unfold request_e_pv, getitem. cbn [find] in Hfind. unfold dict_in in Hfind.
    destruct (dict_get "area_pv" d); cbn [negb] in Hfind;
      [| injection Hfind as <-; reflexivity].
    destruct (dict_get "efficiency_pv" d); cbn [negb] in Hfind;
      [| injection Hfind as <-; reflexivity].
    destruct (dict_get "irradiance" d); cbn [negb] in Hfind;
      [discriminate | injection Hfind as <-; reflexivity].
  - intros v Hsolar Hv.
    apply (Hfail TypeError).
    unfold simulation_inputs. unfold getitem at 1. rewrite Hsolar.
    rewrite Hw, Hbg, Hld, Hbi. cbn [bind].
    destruct v; try reflexivity. exfalso. now apply (Hv fields).
Qed.

End MoreHandlerFacts.

(** X23. When the battery inputs have no ["initial_soc"], the battery starts
    at [soc = 0.5], exactly as if the request had given 0.5. *)
Theorem initial_soc_defaults_to_one_half (d : dict) (b : Battery) :
  dict_get "initial_soc" d = None ->
  request_battery (JObj d) = Ok b ->
  soc b = 5 # 10
  /\ request_battery (JObj (("initial_soc"%string, num (5 # 10)) :: d)) = Ok b.
Proof.
  intros Hnone H.
  assert (Hcons : forall key : string,
             key <> "initial_soc"%string ->
             dict_get key (("initial_soc"%string, num (5 # 10)) :: d)
             = dict_get key d).
  { intros key Hkey. cbn [dict_get].
    destruct (String.eqb_spec key "initial_soc"); [contradiction | reflexivity]. }
  unfold request_battery, getitem, get_default in *.
  rewrite !Hcons by discriminate.
  rewrite Hnone in H. cbn [dict_get String.eqb Ascii.eqb Bool.eqb].
  unfold bind in *. repeat invert_result H.
  match goal with
  | E : as_number (num _) = Ok _ |- _ => cbn in E; injection E as <-
  end.
  injection H as <-. split; reflexivity.
Qed.

Lemma py_min_r_or_eq (a b : Q) : b <= a -> py_min a b == b.
Proof.
  intros H. destruct (py_min_cases a b) as [[H' ->] | [_ ->]]; lra.
Qed.

(** X24. The scenario block never raises, also for a zero load.  For the
    grid outage scenario the uptime percentage is at most 100, is 100 when
    the generation covers a positive load, and is non-negative when the
    generation is. *)
Theorem scenario_modeling_never_raises (data : dict) (total load : Q) :
  exists results : dict,
    scenario_modeling data total load = Ok results
    /\ (results = []
        \/ exists (entry : json) (uptime : Q),
            results = [("grid_outage"%string, entry)]
            /\ getitem entry "system_uptime_percentage" = Ok (num uptime)
            /\ uptime <= 100
            /\ (0 < load -> load <= total -> uptime == 100)
            /\ (0 <= total -> 0 <= uptime)).
Proof.
  unfold scenario_modeling.
  destruct (eq_str (dict_get "scenario" data) "grid_outage").
  - destruct (Qltb_spec 0 load) as [Hpos | Hneg].
    + rewrite py_div_ok by lra. cbn [bind].
      eexists. split; [reflexivity |]. right.
      eexists _, _. split; [reflexivity |]. split; [reflexivity |].
      assert (Hq : total / load * load == total) by (field; lra).
      split; [apply py_min_le_r |]. split.
      * intros _ Hle. rewrite py_min_r_or_eq; [reflexivity |].
        assert (1 <= total / load) by (apply Qle_shift_div_l; lra). lra.
      * intros H0. apply py_min_glb; [| lra].
        assert (0 <= total / load) by (apply Qle_shift_div_l; lra). lra.
    + cbn [bind]. eexists. split; [reflexivity |]. right.
      eexists _, _. split; [reflexivity |]. split; [reflexivity |].
      rewrite py_min_l by lra. split; [lra |]. split; [lra |]. lra.
  - eexists. split; [reflexivity |]. left. reflexivity.
Qed.

(** *** Witnesses *)

Lemma discharge_delivers_at_most_the_request_witness :
  exists (b' : Battery) (delivered : Q),
    discharge 3 sample_battery = (b', Ok delivered)
    /\ 0 <= delivered <= 3 /\ soc b' <= soc sample_battery.
Proof.
  destruct (discharge_delivers_at_most_the_request sample_battery 3)
    as (b' & delivered & Hrun & Hd & Hs & _);
    try split; try (vm_compute; congruence).
  exists b', delivered. split; [exact Hrun |]. split; assumption.
Defined.

Lemma full_battery_takes_nothing_empty_gives_nothing_witness :
  (exists (b' : Battery) (consumed : Q),
      charge 3 (Battery_init 10 1 (9 # 10) (8 # 10)) = (b', Ok consumed)
      /\ consumed == 0)
  /\ (exists (b' : Battery) (delivered : Q),
        discharge 3 (Battery_init 10 0 (9 # 10) (8 # 10)) = (b', Ok delivered)
        /\ delivered == 0).
Proof.
  split.
  - destruct (full_battery_takes_nothing_empty_gives_nothing
                (Battery_init 10 1 (9 # 10) (8 # 10)) 3) as (Hfull & _);
      try (vm_compute; congruence).
    destruct Hfull as (b' & consumed & Hrun & Hz & _); [reflexivity |].
    exists b', consumed. split; assumption.
  - destruct (full_battery_takes_nothing_empty_gives_nothing
                (Battery_init 10 0 (9 # 10) (8 # 10)) 3) as (_ & Hempty);
      try (vm_compute; congruence).
    destruct Hempty as (b' & delivered & Hrun & Hz & _); [reflexivity |].
    exists b', delivered. split; assumption.
Defined.

Lemma battery_methods_raise_exactly_on_zero_divisors_witness :
  charge 3 (Battery_init 0 (1 # 2) (9 # 10) (8 # 10))
  = (Battery_init 0 (1 # 2) (9 # 10) (8 # 10), Raise ZeroDivisionError)
  /\ discharge 3 (Battery_init 10 (1 # 2) (9 # 10) 0)
     = (Battery_init 10 (1 # 2) (9 # 10) 0, Raise ZeroDivisionError).
Proof.
  split.
  - destruct (battery_methods_raise_exactly_on_zero_divisors
                (Battery_init 0 (1 # 2) (9 # 10) (8 # 10)) 3)
      as (Hc & _).
    apply Hc. reflexivity.
  - destruct (battery_methods_raise_exactly_on_zero_divisors
                (Battery_init 10 (1 # 2) (9 # 10) 0) 3)
      as (_ & _ & _ & Hd & _).
    apply Hd. right. reflexivity.
Defined.

Lemma wind_energy_nonnegative_witness :
  0 <= calculate_wind_energy (1225 # 1000) 20 (4 # 10) 8 3 12 25 5 2
  /\ calculate_wind_energy (1225 # 1000) 20 (4 # 10) 30 3 12 25 5 2 == 0.
Proof.
  split.
  - apply (wind_energy_nonnegative (1225 # 1000) 20 (4 # 10) 8 3 12 25 5 2);
      vm_compute; congruence.
  - assert (H0 : forall q : Q, (0 <= Qnum q)%Z -> 0 <= q).
    { intros q Hq. unfold Qle. cbn. lia. }
    destruct (wind_energy_nonnegative (1225 # 1000) 20 (4 # 10) 30 3 12 25 5 2)
      as (_ & _ & Hout); [apply H0; cbn; lia .. |].
    apply Hout. right. vm_compute. reflexivity.
Defined.

Lemma wind_power_nondecreasing_up_to_rated_witness :
  calculate_wind_power (1225 # 1000) 20 (4 # 10) 5 3 12 25 5
  <= calculate_wind_power (1225 # 1000) 20 (4 # 10) 9 3 12 25 5.
Proof.
  apply wind_power_nondecreasing_up_to_rated; vm_compute; congruence.
Defined.

Lemma no_years_no_discounting_witness :
  calculate_lcc 1000 10 100 20 (-1) 0 = Ok 1000
  /\ calculate_lcoe 1000 50 (-1) (-3) = Ok Inf.
Proof.
  split.
  - apply (no_years_no_discounting 1000 10 100 20 0 0 (-1) 0). lia.
  - apply (no_years_no_discounting 0 0 0 0 1000 50 (-1) (-3)). lia.
Defined.

Lemma discount_rate_minus_one_raises_witness :
  calculate_lcc 1000 10 100 20 (-1) 5 = Raise ZeroDivisionError
  /\ calculate_lcoe 1000 0 (-1) 5 = Raise ZeroDivisionError.
Proof.
  apply (discount_rate_minus_one_raises 1000 10 100 20 1000 0 (-1) 5);
    [reflexivity | lia].
Defined.

Lemma final_year_carries_replacement_and_salvage_witness :
  exists v v' : Q,
    calculate_lcc 1000 10 100 20 (5 # 100) 3 = Ok v
    /\ calculate_lcc 1000 10 100 50 (5 # 100) 3 = Ok v'
    /\ v' - v == - (30 / (105 # 100) ^ 3).
Proof.
  destruct (final_year_carries_replacement_and_salvage
              1000 10 100 20 100 50 (5 # 100) 3)
    as (v & v' & H & H' & Hd); [lia | |].
  { intros y Hy. apply (growing_powers_in_range _ 3);
      [vm_compute; discriminate | lia | vm_compute; reflexivity]. }
  exists v, v'. split; [exact H |]. split; [exact H' |].
  rewrite Hd. vm_compute. reflexivity.
Defined.

Lemma lcc_at_zero_discount_rate_witness :
  exists v : Q,
    calculate_lcc 1000 10 100 20 0 4 = Ok v /\ v == 1120.
Proof.
  destruct (lcc_at_zero_discount_rate 1000 10 100 20 0 4)
    as (v & H & Hv); [reflexivity | lia |].
  exists v. split; [exact H |]. rewrite Hv. vm_compute. reflexivity.
Defined.

Lemma lcoe_at_zero_discount_rate_witness :
  exists v : Q,
    calculate_lcoe 1000 50 0 4 = Ok (Finite v) /\ v == 5.
Proof.
  destruct (lcoe_at_zero_discount_rate 1000 50 0 4)
    as (v & H & Hv); [reflexivity | lia | vm_compute; congruence |].
  exists v. split; [exact H |]. rewrite Hv. vm_compute. reflexivity.
Defined.

Lemma request_without_required_section_is_rejected_witness :
  nzeb_model sample_fit_predict sample_str_exn
    [ ("solar_inputs"%string, JObj []) ]
  = ([], (JObj [ ("error"%string, JStr "Missing required input data") ],
          400%Z)).
Proof.
  apply (request_without_required_section_is_rejected
           sample_fit_predict sample_str_exn _ "wind_inputs");
    [cbn; tauto | reflexivity].
Defined.

Lemma missing_key_before_simulation_is_a_client_error_witness :
  nzeb_model sample_fit_predict sample_str_exn
    (sample_request 1 (JObj [ ("capacity"%string, JInt 10) ]) [])
  = ([],
     (JObj [ ("error"%string, JStr "Missing key in input data: 'eta_c'") ],
      400%Z)).
Proof.
  apply (missing_key_before_simulation_is_a_client_error
           sample_fit_predict sample_str_exn _ "eta_c");
    vm_compute; reflexivity.
Defined.

Lemma zero_capacity_battery_fails_the_request_witness :
  exists c : battery_call,
    nzeb_model sample_fit_predict sample_str_exn
      (sample_request 1 (sample_battery_inputs 0) [])
    = ([c],
       (JObj [ ("error"%string,
                JStr "An unexpected error occurred: division by zero") ],
        500%Z)).
Proof.
  eapply (zero_capacity_battery_fails_the_request
            sample_fit_predict sample_str_exn
            (sample_request 1 (sample_battery_inputs 0) []));
    [vm_compute; reflexivity | vm_compute; reflexivity
     | vm_compute; reflexivity | vm_compute; congruence].
Defined.

Lemma no_generation_gives_infinite_lcoe_witness :
  exists (calls : trace) (body : json),
    nzeb_model sample_fit_predict sample_str_exn sample_dark
    = (calls, (body, 200%Z))
    /\ figure body "financial_analysis" "levelized_cost_of_energy_LCOE"
       = Some (JFloat Inf).
Proof.
  eexists _, _. split; [vm_compute; reflexivity |].
  eapply (no_generation_gives_infinite_lcoe
            sample_fit_predict sample_str_exn sample_dark);
    [vm_compute; reflexivity | vm_compute; reflexivity
     | vm_compute; reflexivity].
Defined.

Lemma response_figures_are_consistent_witness :
  exists (calls : trace) (body : json) (total co2 : Q),
    nzeb_model sample_fit_predict sample_str_exn sample_ok
    = (calls, (body, 200%Z))
    /\ figure body "energy_generation" "total_generated_kWh"
       = Some (num total)
    /\ figure body "environmental_impact" "co2_emission_reduction_kg"
       = Some (num co2)
    /\ co2 == total * (5 # 10).
Proof.
  edestruct (response_figures_are_consistent
               sample_fit_predict sample_str_exn sample_ok)
    as (pv & wind & biogas & total & co2 & ef & co2_inputs & ef_field
        & _ & _ & _ & Htotal & _ & Hin & Hfield & Hef & Hco2 & Hval);
    [vm_compute; reflexivity |].
  vm_compute in Hin. injection Hin as <-.
  vm_compute in Hfield. injection Hfield as <-.
  vm_compute in Hef. injection Hef as <-.
  eexists _, _, total, co2. split; [reflexivity |].
  split; [exact Htotal |]. split; [exact Hco2 | exact Hval].
Defined.

Lemma battery_inputs_reach_only_the_battery_status_witness :
  exists (calls calls' : trace) (body body' : json),
    nzeb_model sample_fit_predict sample_str_exn
      (sample_request 1 (sample_battery_inputs 10) [])
    = (calls, (body, 200%Z))
    /\ nzeb_model sample_fit_predict sample_str_exn
         (sample_request 1 (sample_battery_inputs 20) [])
       = (calls', (body', 200%Z))
    /\ getitem body' "financial_analysis" = getitem body "financial_analysis"
    /\ getitem body' "battery_status" <> getitem body "battery_status".
Proof.
  eexists _, _, _, _. split; [vm_compute; reflexivity |].
  split; [vm_compute; reflexivity |]. split.
  - eapply (battery_inputs_reach_only_the_battery_status
              sample_fit_predict sample_str_exn
              (sample_request 1 (sample_battery_inputs 10) [])
              (sample_request 1 (sample_battery_inputs 20) []));
      [reflexivity | reflexivity | | discriminate].
    intros key Hkey. unfold sample_request. cbn [app dict_get].
    destruct (String.eqb_spec key "battery_inputs") as [E | _];
      [contradiction | reflexivity].
  - vm_compute. discriminate.
Defined.

Lemma status_and_error_entry_witness :
  has_section
    (fst (snd (nzeb_model sample_fit_predict sample_str_exn [])))
    "error" = true.
Proof.
  pose proof (status_and_error_entry sample_fit_predict sample_str_exn [])
    as H.
  destruct (nzeb_model sample_fit_predict sample_str_exn [])
    as [calls [body status]] eqn:E.
  destruct H as (_ & Herr & _). cbn [fst snd]. apply Herr.
  vm_compute in E. injection E as _ _ <-. discriminate.
Defined.

Lemma initial_soc_defaults_to_one_half_witness :
  exists b : Battery,
    request_battery (sample_battery_inputs 10) = Ok b /\ soc b = 5 # 10.
Proof.
  eexists. split; [vm_compute; reflexivity |].
  eapply (initial_soc_defaults_to_one_half
            [ ("capacity"%string, num 10);
              ("eta_c"%string, num (9 # 10));
              ("eta_d"%string, num (9 # 10)) ]);
    [reflexivity | vm_compute; reflexivity].
Defined.

Lemma scenario_modeling_never_raises_witness :
  exists (entry : json) (uptime : Q),
    scenario_modeling [ ("scenario"%string, JStr "grid_outage") ] 3 2
    = Ok [ ("grid_outage"%string, entry) ]
    /\ getitem entry "system_uptime_percentage" = Ok (num uptime)
    /\ uptime == 100.
Proof.
  destruct (scenario_modeling_never_raises
              [ ("scenario"%string, JStr "grid_outage") ] 3 2)
    as (results & Hrun & [Hnil | (entry & uptime & Hres & Hup & _ & Hfull & _)]).
  - rewrite Hnil in Hrun. vm_compute in Hrun. discriminate.
  - exists entry, uptime. rewrite <- Hres. split; [exact Hrun |].
    split; [exact Hup |]. apply Hfull; vm_compute; congruence.
Defined.

Lemma scenario_tag_reaches_only_the_scenario_section_witness :
  exists (calls calls' : trace) (body body' : json),
    nzeb_model sample_fit_predict sample_str_exn
      (sample_request 2 (sample_battery_inputs 10) [])
    = (calls, (body, 200%Z))
    /\ nzeb_model sample_fit_predict sample_str_exn
         (sample_request 2 (sample_battery_inputs 10)
            [ ("scenario"%string, JStr "grid_outage") ])
       = (calls', (body', 200%Z))
    /\ calls' = calls
    /\ getitem body' "battery_status" = getitem body "battery_status".
Proof.
  eexists _, _, _, _. split; [vm_compute; reflexivity |].
  split; [vm_compute; reflexivity |].
  edestruct (scenario_tag_reaches_only_the_scenario_section
               sample_fit_predict sample_str_exn
               (sample_request 2 (sample_battery_inputs 10) [])
               (sample_request 2 (sample_battery_inputs 10)
                  [ ("scenario"%string, JStr "grid_outage") ]))
    as (Hcalls & Hsections); [reflexivity | reflexivity | |].
  - intros key Hkey. unfold sample_request. cbn [app dict_get].
    destruct (String.eqb_spec key "scenario") as [E | _];
      [contradiction |].
    repeat match goal with
           | |- context [String.eqb key ?k] => destruct (String.eqb key k)
           end; reflexivity.
  - split; [exact Hcalls | apply Hsections; discriminate].
Defined.

Lemma solar_inputs_errors_witness :
  nzeb_model sample_fit_predict sample_str_exn
    (("solar_inputs"%string,
      JObj [ ("area_pv"%string, JStr "ten");
             ("irradiance"%string, JInt 1) ]) :: sample_ok)
  = ([],
     (JObj [ ("error"%string,
              JStr "Missing key in input data: 'efficiency_pv'") ],
      400%Z))
  /\ nzeb_model sample_fit_predict sample_str_exn
       (("solar_inputs"%string, JInt 5) :: sample_ok)
     = ([],
        (JObj [ ("error"%string,
                 JStr "An unexpected error occurred: unsupported operand type") ],
         500%Z)).
Proof.
  split.
  - edestruct (solar_inputs_errors sample_fit_predict sample_str_exn
                 (("solar_inputs"%string,
                   JObj [ ("area_pv"%string, JStr "ten");
                          ("irradiance"%string, JInt 1) ]) :: sample_ok))
      as (Hkey & _); [vm_compute; reflexivity |].
    apply (Hkey [ ("area_pv"%string, JStr "ten");
                  ("irradiance"%string, JInt 1) ] "efficiency_pv"%string);
      reflexivity.
  - edestruct (solar_inputs_errors sample_fit_predict sample_str_exn
                 (("solar_inputs"%string, JInt 5) :: sample_ok))
      as (_ & Htype); [vm_compute; reflexivity |].
    apply (Htype (JInt 5)); [reflexivity | discriminate].
Defined.
